(** * toolbox: value providers, date-format translation and the storage facade

    A shallow embedding of the Go sources
    - [value_provider.go] (registry of value providers and the built-in
      providers; it is the second document of [src/time_format_test.go]),
    - [storage/service.go] (the scheme-keyed storage facade),
    together with the statements that the specification makes about them.

    Go values of type [interface{}] are a tagged union, Go's [(value, error)]
    results are pairs whose second component is an optional message, a Go
    [panic] is an outcome of its own, and Go maps are stdpp's [gmap]. *)

From Stdlib Require Import ZArith Lia List String Ascii Floats.
From stdpp Require Import base gmap strings list pretty.

Local Open Scope Z_scope.
Local Open Scope string_scope.

(** ** Go runtime: machine integers *)

Module Go.

(** [int] and [int64] on a 64-bit platform: two's complement wrap-around. *)
Definition wrap64 (z : Z) : Z := (z + 2 ^ 63) mod 2 ^ 64 - 2 ^ 63.

Definition add64 (a b : Z) : Z := wrap64 (a + b).
Definition mul64 (a b : Z) : Z := wrap64 (a * b).
(** Go's [/] on integers truncates toward zero. *)
Definition div64 (a b : Z) : Z := wrap64 (Z.quot a b).

(** Go errors carry a message; [nil] is [None]. *)
Definition error := string.

(** The outcome of running a Go function that may panic. *)
Inductive exec (A : Type) : Type :=
| Done (a : A)
| Panic (msg : string).
Global Arguments Done {A} a.
Global Arguments Panic {A} msg.

(** [%v] of an integer. *)
Definition fmt_int (n : Z) : string := pretty n.

End Go.

(** ** Go runtime: [time.Time] and [time.Duration] *)

Module time.

Import Go.

(** A [time.Duration] is an [int64] count of nanoseconds. *)
Definition Duration := Z.
Definition Second : Duration := 1000000000.
Definition Minute : Duration := 60 * Second.
Definition Hour : Duration := 60 * Minute.

(** An instant: whole seconds since the Unix epoch and the nanoseconds
    within that second, [0 <= nsec < 10^9]. *)
Record Time : Type := mkTime { sec : Z; nsec : Z }.

(** The zero value of [time.Time]: January 1, year 1, 00:00:00 UTC. *)
Definition zero : Time := mkTime (-62135596800) 0.

(** [t.Unix()] *)
Definition Unix (t : Time) : Z := sec t.

(** [t.UnixNano()]: [sec*1e9 + nsec] in [int64] arithmetic. *)
Definition UnixNano (t : Time) : Z := add64 (mul64 (sec t) 1000000000) (nsec t).

(** [t.UnixMilli()], the milliseconds since the epoch. *)
Definition UnixMilli (t : Time) : Z := sec t * 1000 + nsec t / 1000000.

(** [t.Add(d)] *)
Definition Add (t : Time) (d : Duration) : Time :=
  let dsec := Z.quot d 1000000000 in
  let ns := nsec t + Z.rem d 1000000000 in
  if (1000000000 <=? ns)%Z then mkTime (sec t + dsec + 1) (ns - 1000000000)
  else if (ns <? 0)%Z then mkTime (sec t + dsec - 1) (ns + 1000000000)
  else mkTime (sec t + dsec) ns.

End time.

(** ** Values of type [interface{}] *)

Inductive value : Type :=
| VNil
| VBool (b : bool)
| VInt (n : Z)
| VFloat (f : float)
| VString (s : string)
| VTime (t : time.Time).

(** What a provider's [Get] hands back: the pair [(interface{}, error)], or a
    panic. *)
Definition result : Type := Go.exec (value * option Go.error).

Definition returns (v : value) : result := Go.Done (v, None).
Definition fails (msg : string) : result := Go.Done (VNil, Some msg).

(** ** The [Dictionary] interface and [MapDictionary] *)

(** [Dictionary]: the two methods of the interface. *)
Record Dictionary : Type := mkDictionary {
  Dictionary_Get : string → value * option Go.error;
  Dictionary_Exists : string → bool
}.

(** [MapDictionary] is an alias of [map[string]interface{}]. *)
Abbreviation MapDictionary := (gmap string value).

Definition MapDictionary_Get (d : MapDictionary) (name : string)
  : value * option Go.error :=
  match d !! name with
  | Some result => (result, None)
  | None => (VNil, Some ("failed to lookup: " ++ name))
  end.

Definition MapDictionary_Exists (d : MapDictionary) (name : string) : bool :=
  match d !! name with
  | Some _ => true
  | None => false
  end.

(** [*MapDictionary] implements [Dictionary]. *)
Definition MapDictionary_asDictionary (d : MapDictionary) : Dictionary :=
  mkDictionary (MapDictionary_Get d) (MapDictionary_Exists d).

(** ** What the providers use and [src/] does not define

    The conversion helpers of the package ([AsString], [AsInt], [AsFloat],
    [AsBoolean], [AsTime], [ParseTime]), its [Context] type, and the parts of
    the Go library whose result depends on the machine ([time.Now],
    [os.LookupEnv]), on Unicode tables ([strings.ToLower]) or on the time
    zone ([Time.Format]) are taken as given. *)
Class Helpers : Type := {
  AsString : value → string;
  AsInt : value → Z;
  AsFloat : value → float;
  AsBoolean : value → bool;
  AsTime : value → string → option time.Time;
  ParseTime : string → string → time.Time + Go.error;
  strings_ToLower : string → string;
  time_Now : time.Time;
  time_Format : time.Time → string → string;
  os_LookupEnv : string → option string;
  Context : Type;
  (** [context.GetInto(key, &dictionary)]: the dictionary stored under
      [key], if any; otherwise the target keeps its nil value. *)
  Context_GetInto : Context → value → option Dictionary
}.

(** ** The registry of value providers *)

Module Registry.
Section Registry.

(** [ValueProvider] is an interface; the registry only stores and returns
    its values. *)
Context {ValueProvider : Type}.

Record valueProviderRegistryImpl : Type := mkRegistry {
  registry : gmap string ValueProvider
}.

(** [r.registry[name] = valueProvider] *)
Definition Register (r : valueProviderRegistryImpl) (name : string)
    (valueProvider : ValueProvider) : valueProviderRegistryImpl :=
  mkRegistry (<[name := valueProvider]> (registry r)).

Definition Contains (r : valueProviderRegistryImpl) (name : string) : bool :=
  match registry r !! name with
  | Some _ => true
  | None => false
  end.

Definition Get (r : valueProviderRegistryImpl) (name : string)
  : Go.exec ValueProvider :=
  match registry r !! name with
  | Some result => Go.Done result
  | None => Go.Panic ("failed to lookup name: " ++ name)
  end.

Definition NewValueProviderRegistry : valueProviderRegistryImpl :=
  mkRegistry ∅.

(** A run of [Register] calls, oldest first. *)
Definition RegisterAll (r : valueProviderRegistryImpl)
    (calls : list (string * ValueProvider)) : valueProviderRegistryImpl :=
  foldl (λ acc c, Register acc c.1 c.2) r calls.

End Registry.
Global Arguments valueProviderRegistryImpl : clear implicits.
End Registry.

(** ** Strings *)

Module Str.

(** The first [n] characters of [s] removed. *)
Fixpoint skipn_string (n : nat) (s : string) : string :=
  match n, s with
  | O, _ => s
  | S n', String _ rest => skipn_string n' rest
  | S _, EmptyString => EmptyString
  end.

End Str.

(** ** Go's layout language: [time.Parse] and [Time.Format]

    The part of Go's [time.Parse] (time/format.go) that reads the
    placeholders which the token table of the translator can emit. A layout
    that holds another placeholder of the language (month and weekday names,
    AM/PM, day of the year, fields padded with blanks, ISO 8601 zones, zones
    with seconds, a fraction after a comma or written with nines) or a text
    whose zone is an abbreviation other than UTC is reported as
    [Unmodelled], never as parsed or refused. *)

Module Layout.

Import time.

Inductive std : Type :=
| stdLongYear | stdYear
| stdZeroMonth | stdNumMonth
| stdZeroDay | stdDay
| stdHour | stdZeroHour12 | stdHour12
| stdZeroMinute | stdMinute
| stdZeroSecond | stdSecond
| stdFracSecond0 (digits : nat) | stdFracSecond9 (digits : nat)
| stdTZ
| stdNumTZ | stdNumColonTZ | stdNumShortTZ
| stdOther.

Definition isDigit (s : string) : bool :=
  match s with
  | String c _ => ((48 <=? nat_of_ascii c) && (nat_of_ascii c <=? 57))%nat
  | EmptyString => false
  end.

Definition digitVal (c : ascii) : Z := Z.of_nat (nat_of_ascii c) - 48.

(** The run of [ch] that starts [s]: its length. *)
Fixpoint runLength (ch : ascii) (s : string) : nat :=
  match s with
  | String c rest => if Ascii.eqb c ch then S (runLength ch rest) else O
  | EmptyString => O
  end.

(** [.000], [,000], [.999], [,999]: a separator and a run of one digit
    that no other digit follows. *)
Definition fracAt (layout : string) : option (std * nat) :=
  match layout with
  | String sep (String d _ as digits) =>
      if (Ascii.eqb sep "." || Ascii.eqb sep ",")
         && (Ascii.eqb d "0" || Ascii.eqb d "9") then
        let n := runLength d digits in
        if isDigit (Str.skipn_string n digits) then None
        else Some (if Ascii.eqb sep "," then stdOther
                   else if Ascii.eqb d "0" then stdFracSecond0 n
                   else stdFracSecond9 n, S n)
      else None
  | _ => None
  end.

(** The placeholder that starts [layout], with its length in characters:
    the cases of [nextStdChunk] at one position. *)
Definition stdAt (layout : string) : option (std * nat) :=
  let starts p := String.prefix p layout in
  if starts "Jan" then Some (stdOther, 3%nat)
  else if starts "Mon" then Some (stdOther, 3%nat)
  else if starts "MST" then Some (stdTZ, 3%nat)
  else if starts "01" then Some (stdZeroMonth, 2%nat)
  else if starts "02" then Some (stdZeroDay, 2%nat)
  else if starts "03" then Some (stdZeroHour12, 2%nat)
  else if starts "04" then Some (stdZeroMinute, 2%nat)
  else if starts "05" then Some (stdZeroSecond, 2%nat)
  else if starts "06" then Some (stdYear, 2%nat)
  else if starts "002" then Some (stdOther, 3%nat)
  else if starts "15" then Some (stdHour, 2%nat)
  else if starts "1" then Some (stdNumMonth, 1%nat)
  else if starts "2006" then Some (stdLongYear, 4%nat)
  else if starts "2" then Some (stdDay, 1%nat)
  else if starts "_2" then Some (stdOther, 2%nat)
  else if starts "__2" then Some (stdOther, 3%nat)
  else if starts "3" then Some (stdHour12, 1%nat)
  else if starts "4" then Some (stdMinute, 1%nat)
  else if starts "5" then Some (stdSecond, 1%nat)
  else if starts "PM" then Some (stdOther, 2%nat)
  else if starts "pm" then Some (stdOther, 2%nat)
  else if starts "-070000" then Some (stdOther, 7%nat)
  else if starts "-07:00:00" then Some (stdOther, 9%nat)
  else if starts "-0700" then Some (stdNumTZ, 5%nat)
  else if starts "-07:00" then Some (stdNumColonTZ, 6%nat)
  else if starts "-07" then Some (stdNumShortTZ, 3%nat)
  else if starts "Z07" then Some (stdOther, 3%nat)
  else fracAt layout.

(** [nextStdChunk(layout)]: the text before the first placeholder, the
    placeholder, and the rest; [None] when there is no placeholder. *)
Fixpoint nextStdChunk (layout : string) : string * option (std * string) :=
  match layout with
  | EmptyString => ("", None)
  | String c rest =>
      match stdAt layout with
      | Some (s, n) => ("", Some (s, Str.skipn_string n layout))
      | None =>
          let '(prefix, found) := nextStdChunk rest in
          (String c prefix, found)
      end
  end.

Fixpoint cutspace (s : string) : string :=
  match s with
  | String " " rest => cutspace rest
  | _ => s
  end.

(** [skip(value, prefix)]: [value] without the literal [prefix]; a run of
    blanks in the prefix stands for any run of blanks in the value. *)
Fixpoint skip_loop (fuel : nat) (value prefix : string) : option string :=
  match prefix with
  | EmptyString => Some value
  | String p0 prefix' =>
      match fuel with
      | O => None
      | S fuel' =>
          if Ascii.eqb p0 " " then
            match value with
            | String v0 _ =>
                if Ascii.eqb v0 " "
                then skip_loop fuel' (cutspace value) (cutspace prefix)
                else None
            | EmptyString => skip_loop fuel' (cutspace value) (cutspace prefix)
            end
          else
            match value with
            | String v0 value' =>
                if Ascii.eqb v0 p0 then skip_loop fuel' value' prefix' else None
            | EmptyString => None
            end
      end
  end.

Definition skip (value prefix : string) : option string :=
  skip_loop (String.length prefix) value prefix.

(** [getnum(s, fixed)]: one or two digits, exactly two when [fixed]. *)
Definition getnum (s : string) (fixed : bool) : option (Z * string) :=
  match s with
  | String c0 rest =>
      if isDigit s then
        match rest with
        | String c1 rest' =>
            if isDigit rest then Some (digitVal c0 * 10 + digitVal c1, rest')
            else if fixed then None else Some (digitVal c0, rest)
        | EmptyString => if fixed then None else Some (digitVal c0, rest)
        end
      else None
  | EmptyString => None
  end.

(** The digits of [s] read as a number, [None] when another character
    occurs. *)
Fixpoint digits (acc : Z) (s : string) : option Z :=
  match s with
  | EmptyString => Some acc
  | String c rest =>
      if isDigit s then digits (acc * 10 + digitVal c) rest else None
  end.

(** [atoi(s)]: an optional sign and digits only. *)
Definition atoi (s : string) : option Z :=
  match s with
  | String "-" rest => Z.opp <$> digits 0 rest
  | String "+" rest => digits 0 rest
  | _ => digits 0 s
  end.

Definition take (n : nat) (s : string) : string := String.substring 0 n s.

(** The fields that [Parse] collects; [-1] marks a month, a day or a zone
    offset that the text has not given. *)
Record fields : Type := mkFields {
  year : Z; month : Z; day : Z;
  hour : Z; minute : Z; second : Z; nanos : Z;
  utc : bool; zoneOffset : Z
}.

Definition noFields : fields := mkFields 0 (-1) (-1) 0 0 0 0 false (-1).

Inductive step : Type :=
| Next (value : string) (f : fields)
| Bad
| OutOfRange (what : string)
| NotModelled.

Inductive parsed : Type :=
| Parsed (t : Time)
| Refused (why : string)
| Unmodelled.

Definition commaOrPeriod (s : string) : bool :=
  match s with
  | String c _ => Ascii.eqb c "." || Ascii.eqb c ","
  | EmptyString => false
  end.

(** [parseNanoseconds(value, nbytes)] *)
Definition parseNanoseconds (value : string) (nbytes : nat)
  : option (Z + string) :=
  if commaOrPeriod value then
    let nbytes := Nat.min nbytes 10 in
    match atoi (String.substring 1 (nbytes - 1) value) with
    | Some ns =>
        if (ns <? 0)%Z then Some (inr "fractional second")
        else Some (inl (ns * 10 ^ Z.of_nat (10 - nbytes)))
    | None => None
    end
  else None.

Definition set_nanos (f : fields) (value : string) (n : nat) : step :=
  match parseNanoseconds value n with
  | Some (inl ns) =>
      Next (Str.skipn_string n value)
           (mkFields (year f) (month f) (day f) (hour f) (minute f)
                     (second f) ns (utc f) (zoneOffset f))
  | Some (inr what) => OutOfRange what
  | None => Bad
  end.

(** The number of characters of a fraction that starts [value]: the
    separator and the digits after it. *)
Definition fractionLength (value : string) : nat :=
  match value with
  | String _ rest =>
      (fix count (s : string) : nat :=
         match s with
         | String c s' => if isDigit s then S (count s') else O
         | EmptyString => O
         end) rest + 1
  | EmptyString => O
  end.

Definition isFrac (s : option (std * string)) : bool :=
  match s with
  | Some (stdFracSecond0 _, _) | Some (stdFracSecond9 _, _) => true
  | _ => false
  end.

(** A numeric zone offset: sign, hours, minutes. *)
Definition zone (f : fields) (sign : string) (hh mm : string) (rest : string)
  : step :=
  match getnum hh true, getnum mm true with
  | Some (hr, _), Some (mi, _) =>
      if (24 <? hr)%Z then OutOfRange "time zone offset hour"
      else if (60 <? mi)%Z then OutOfRange "time zone offset minute"
      else
        let offset := (hr * 60 + mi) * 60 in
        let with_offset o :=
          Next rest (mkFields (year f) (month f) (day f) (hour f) (minute f)
                              (second f) (nanos f) (utc f) o) in
        if String.eqb sign "+" then with_offset offset
        else if String.eqb sign "-" then with_offset (- offset)
        else Bad
  | _, _ => Bad
  end.

(** One placeholder read off the text: a case of the [switch] in [parse].
    [layout] is the layout after the placeholder. *)
Definition parseStd (s : std) (layout value : string) (f : fields) : step :=
  let num (fixed : bool) (lo hi : Z) (what : string)
          (set : Z → fields) : step :=
    match getnum value fixed with
    | Some (n, rest) =>
        if ((n <? lo) || (hi <? n))%Z then OutOfRange what
        else Next rest (set n)
    | None => Bad
    end in
  match s with
  | stdYear =>
      if (String.length value <? 2)%nat then Bad
      else match atoi (take 2 value) with
           | Some y =>
               let y := if (69 <=? y)%Z then y + 1900 else y + 2000 in
               Next (Str.skipn_string 2 value)
                    (mkFields y (month f) (day f) (hour f) (minute f)
                              (second f) (nanos f) (utc f) (zoneOffset f))
           | None => Bad
           end
  | stdLongYear =>
      if (String.length value <? 4)%nat || negb (isDigit value) then Bad
      else match atoi (take 4 value) with
           | Some y =>
               Next (Str.skipn_string 4 value)
                    (mkFields y (month f) (day f) (hour f) (minute f)
                              (second f) (nanos f) (utc f) (zoneOffset f))
           | None => Bad
           end
  | stdNumMonth | stdZeroMonth =>
      num (match s with stdZeroMonth => true | _ => false end) 1 12 "month"
          (λ n, mkFields (year f) n (day f) (hour f) (minute f) (second f)
                         (nanos f) (utc f) (zoneOffset f))
  | stdDay | stdZeroDay =>
      num (match s with stdZeroDay => true | _ => false end) 0 99 "day"
          (λ n, mkFields (year f) (month f) n (hour f) (minute f) (second f)
                         (nanos f) (utc f) (zoneOffset f))
  | stdHour =>
      num false 0 23 "hour"
          (λ n, mkFields (year f) (month f) (day f) n (minute f) (second f)
                         (nanos f) (utc f) (zoneOffset f))
  | stdHour12 | stdZeroHour12 =>
      num (match s with stdZeroHour12 => true | _ => false end) 0 12 "hour"
          (λ n, mkFields (year f) (month f) (day f) n (minute f) (second f)
                         (nanos f) (utc f) (zoneOffset f))
  | stdMinute | stdZeroMinute =>
      num (match s with stdZeroMinute => true | _ => false end) 0 59 "minute"
          (λ n, mkFields (year f) (month f) (day f) (hour f) n (second f)
                         (nanos f) (utc f) (zoneOffset f))
  | stdSecond | stdZeroSecond =>
      match num (match s with stdZeroSecond => true | _ => false end)
                0 59 "second"
                (λ n, mkFields (year f) (month f) (day f) (hour f) (minute f)
                               n (nanos f) (utc f) (zoneOffset f)) with
      | Next rest f' =>
          (* a fraction in the text that the layout does not announce *)
          if (2 <=? String.length rest)%nat && commaOrPeriod rest
             && isDigit (Str.skipn_string 1 rest)
             && negb (isFrac (nextStdChunk layout).2)
          then set_nanos f' rest (fractionLength rest)
          else Next rest f'
      | other => other
      end
  | stdFracSecond0 n =>
      if (String.length value <? 1 + n)%nat then Bad
      else set_nanos f value (1 + n)
  | stdTZ =>
      if String.prefix "UTC" value then
        Next (Str.skipn_string 3 value)
             (mkFields (year f) (month f) (day f) (hour f) (minute f)
                       (second f) (nanos f) true (zoneOffset f))
      else NotModelled
  | stdNumTZ =>
      if (String.length value <? 5)%nat then Bad
      else zone f (take 1 value) (String.substring 1 2 value)
                (String.substring 3 2 value) (Str.skipn_string 5 value)
  | stdNumColonTZ =>
      if (String.length value <? 6)%nat then Bad
      else if negb (String.eqb (String.substring 3 1 value) ":") then Bad
      else zone f (take 1 value) (String.substring 1 2 value)
                (String.substring 4 2 value) (Str.skipn_string 6 value)
  | stdNumShortTZ =>
      if (String.length value <? 3)%nat then Bad
      else zone f (take 1 value) (String.substring 1 2 value) "00"
                (Str.skipn_string 3 value)
  | stdFracSecond9 _ | stdOther => NotModelled
  end.

Definition isLeap (y : Z) : bool :=
  ((y mod 4 =? 0) && (negb (y mod 100 =? 0) || (y mod 400 =? 0)))%Z.

Definition daysIn (m y : Z) : Z :=
  if (m =? 2)%Z then (if isLeap y then 29 else 28)
  else if ((m =? 4) || (m =? 6) || (m =? 9) || (m =? 11))%Z then 30
  else 31.

(** Days from 1970-01-01 to the given day of the proleptic Gregorian
    calendar. *)
Definition daysSinceEpoch (y m d : Z) : Z :=
  let y' := if (m <=? 2)%Z then y - 1 else y in
  let era := y' / 400 in
  let yoe := y' - era * 400 in
  let doy := (153 * (if (2 <? m)%Z then m - 3 else m + 9) + 2) / 5 + d - 1 in
  let doe := yoe * 365 + yoe / 4 - yoe / 100 + doy in
  era * 146097 + doe - 719468.

(** The end of [parse]: defaults, the check of the day, and the instant. *)
Definition finish (f : fields) : parsed :=
  let m := if (month f <? 0)%Z then 1 else month f in
  let d := if (day f <? 0)%Z then 1 else day f in
  if ((d <? 1) || (daysIn m (year f) <? d))%Z then Refused "day out of range"
  else
    let local := daysSinceEpoch (year f) m d * 86400
                 + hour f * 3600 + minute f * 60 + second f in
    if utc f then Parsed (mkTime local (nanos f))
    else if negb (zoneOffset f =? -1)%Z
    then Parsed (mkTime (local - zoneOffset f) (nanos f))
    else Parsed (mkTime local (nanos f)).

(** The loop of [parse]: one placeholder per round. *)
Fixpoint parse_loop (fuel : nat) (layout value : string) (f : fields)
  : parsed :=
  match fuel with
  | O => Unmodelled
  | S fuel' =>
      let '(prefix, found) := nextStdChunk layout in
      match skip value prefix with
      | None => Refused "text does not match the layout"
      | Some value =>
          match found with
          | None =>
              if (String.length value =? 0)%nat then finish f
              else Refused "extra text"
          | Some (s, suffix) =>
              match parseStd s suffix value f with
              | Next value' f' => parse_loop fuel' suffix value' f'
              | Bad => Refused "text does not match the layout"
              | OutOfRange what => Refused (what ++ " out of range")
              | NotModelled => Unmodelled
              end
          end
      end
  end.

(** [time.Parse(layout, value)] *)
Definition Parse (layout value : string) : parsed :=
  parse_loop (S (String.length layout)) layout value noFields.

(** *** [Time.Format], for an instant shown in UTC *)

Fixpoint zeros (n : nat) : string :=
  match n with
  | O => ""
  | S n' => String "0" (zeros n')
  end.

(** [appendInt(b, x, width)]: the decimal digits of [x], padded with zeros
    to [width] digits, after the sign. *)
Definition appendInt (x : Z) (width : nat) : string :=
  let d := pretty (Z.abs x) in
  (if (x <? 0)%Z then "-" else "") ++ zeros (width - String.length d) ++ d.

(** The day of the proleptic Gregorian calendar that is [days] days after
    1970-01-01: year, month, day. *)
Definition civil (days : Z) : Z * Z * Z :=
  let z := days + 719468 in
  let era := z / 146097 in
  let doe := z - era * 146097 in
  let yoe := (doe - doe / 1460 + doe / 36524 - doe / 146096) / 365 in
  let doy := doe - (365 * yoe + yoe / 4 - yoe / 100) in
  let mp := (5 * doy + 2) / 153 in
  let d := doy - (153 * mp + 2) / 5 + 1 in
  let m := if (mp <? 10)%Z then mp + 3 else mp - 9 in
  (yoe + era * 400 + (if (m <=? 2)%Z then 1 else 0), m, d).

(** One placeholder written out: a case of the [switch] in
    [appendFormat]. *)
Definition formatStd (s : std) (t : Time) : option string :=
  let '(y, m, d) := civil (sec t / 86400) in
  let secs := sec t mod 86400 in
  let hh := secs / 3600 in
  let mi := secs mod 3600 / 60 in
  let ss := secs mod 60 in
  match s with
  | stdLongYear => Some (appendInt y 4)
  | stdYear => Some (appendInt (Z.abs y mod 100) 2)
  | stdZeroMonth => Some (appendInt m 2)
  | stdNumMonth => Some (appendInt m 0)
  | stdZeroDay => Some (appendInt d 2)
  | stdDay => Some (appendInt d 0)
  | stdHour => Some (appendInt hh 2)
  | stdHour12 => Some (appendInt (if (hh mod 12 =? 0)%Z then 12 else hh mod 12) 0)
  | stdZeroHour12 =>
      Some (appendInt (if (hh mod 12 =? 0)%Z then 12 else hh mod 12) 2)
  | stdMinute => Some (appendInt mi 0)
  | stdZeroMinute => Some (appendInt mi 2)
  | stdSecond => Some (appendInt ss 0)
  | stdZeroSecond => Some (appendInt ss 2)
  | stdFracSecond0 n =>
      Some ("." ++ take (Nat.min n 9) (appendInt (nsec t) 9))
  | stdTZ => Some "UTC"
  | stdNumTZ => Some "+0000"
  | stdNumColonTZ => Some "+00:00"
  | stdNumShortTZ => Some "+00"
  | stdFracSecond9 _ | stdOther => None
  end.

(** The loop of [appendFormat]: the text before each placeholder, then the
    placeholder written out. *)
Fixpoint format_loop (fuel : nat) (t : Time) (layout : string) : option string :=
  match fuel with
  | O => None
  | S fuel' =>
      match nextStdChunk layout with
      | (prefix, None) => Some prefix
      | (prefix, Some (s, suffix)) =>
          match formatStd s t, format_loop fuel' t suffix with
          | Some field, Some rest => Some (prefix ++ field ++ rest)
          | _, _ => None
          end
      end
  end.

(** [t.UTC().Format(layout)]; [None] for a layout outside the model. *)
Definition FormatUTC (t : Time) (layout : string) : option string :=
  format_loop (S (String.length layout)) t layout.

End Layout.


(** ** Date patterns and layouts *)

Module TimeFormat.

(** Modelled from the spec: the token table of [DateFormatToLayout], which
    is not under [src/]. The spec's table (section 4.1) names each output by
    its form in Go's reference time (Mon Jan 2 15:04:05 MST 2006, zone offset
    -0700). Its rows pair the tokens with the forms in the order they are
    written: [MM / M] is the 2-digit and the non-padded month, [dd / d] the
    2-digit and the non-padded day, and [ZZ / Z] the numeric offset with and
    without colon. *)
Definition layoutTable : list (string * string) :=
  [ ("yyyy", "2006"); ("yy", "06");
    ("MM", "01"); ("M", "1");
    ("dd", "02"); ("d", "2");
    ("HH", "15"); ("hh", "03");
    ("mm", "04"); ("ss", "05");
    ("SSS", "000");
    ("z", "MST");
    ("ZZ", "-07:00"); ("Z", "-0700") ].

(** Modelled from the spec: one comparison of the search for the longest
    token (part of [DateFormatToLayout], not under [src/]). Of the current
    best match and a table entry, the one to keep: the entry wins when its
    token starts the input and is longer than the best. *)
Definition better (input : string) (best : option (string * string))
    (entry : string * string) : option (string * string) :=
  if String.prefix entry.1 input then
    match best with
    | Some b =>
        if (String.length b.1 <? String.length entry.1)%nat
        then Some entry else best
    | None => if (0 <? String.length entry.1)%nat then Some entry else None
    end
  else best.

(** Modelled from the spec: the longest token of [table] that starts
    [input], with its output (part of [DateFormatToLayout], not under
    [src/]). *)
Definition longestToken (table : list (string * string)) (input : string)
  : option (string * string) :=
  foldl (better input) None table.

(** Modelled from the spec: the scan of [DateFormatToLayout] (not under
    [src/]): left to right; at each position the longest known token that
    starts there is replaced by its output; where none starts, the character
    is copied and the scan advances by one. The scan is kept as its steps,
    each the text it consumed and the text it emitted; [fuel] bounds their
    number. *)
Fixpoint scan (table : list (string * string)) (fuel : nat) (pattern : string)
  : list (string * string) :=
  match fuel with
  | O => []
  | S fuel' =>
      match pattern with
      | EmptyString => []
      | String c rest =>
          match longestToken table pattern with
          | Some (token, out) =>
              (token, out)
                :: scan table fuel' (Str.skipn_string (String.length token) pattern)
          | None => (String c "", String c "") :: scan table fuel' rest
          end
      end
  end.

Definition emitted (steps : list (string * string)) : string :=
  foldr String.append "" steps.*2.




(** Modelled from the spec: the translation of [pattern] under a token
    table, the text that the scan emits (part of [DateFormatToLayout], not
    under [src/]). A pattern of [n] characters has at most [n] scan
    positions. *)
Definition translate (table : list (string * string)) (pattern : string)
  : string :=
  emitted (scan table (String.length pattern) pattern).

(** Modelled from the spec: [DateFormatToLayout(pattern)], not under
    [src/]. *)
Definition DateFormatToLayout (pattern : string) : string :=
  translate layoutTable pattern.

(** Modelled from the spec: the two settings keys ([DateFormatKeyword],
    [DateLayoutKeyword]); the spec gives them no value, any two distinct
    strings serve. *)
Definition DateFormatKeyword : string := "dateFormat".
Definition DateLayoutKeyword : string := "dateLayout".

(** Modelled from the spec: [GetTimeLayout(settings)], not under [src/]:
    an explicit layout if present, else the translated pattern, else the
    empty layout. *)
Definition GetTimeLayout (settings : gmap string string) : string :=
  match settings !! DateLayoutKeyword with
  | Some layout => layout
  | None =>
      match settings !! DateFormatKeyword with
      | Some pattern => DateFormatToLayout pattern
      | None => ""
      end
  end.

(** Modelled from the spec: [HasTimeLayout(settings)], not under [src/]. *)
Definition HasTimeLayout (settings : gmap string string) : bool :=
  match settings !! DateLayoutKeyword, settings !! DateFormatKeyword with
  | None, None => false
  | _, _ => true
  end.

(** [TestGetTimeLayout] (src/time_format_test.go, lines 63 to 69): the
    settings it builds and the layout it asserts for them. *)
Definition TestGetTimeLayout_settings : gmap string string :=
  {[ DateFormatKeyword := "yyyy-MM-dd HH:mm:ss z" ]}.
Definition TestGetTimeLayout_expected : string := "2006-1-02 15:04:05 MST".

(** The token table with [MM] written as the month without padding, the
    form that [TestGetTimeLayout] asserts. *)
Definition unpaddedTable : list (string * string) :=
  (λ e : string * string, if String.eqb e.1 "MM" then ("MM", "1") else e)
    <$> layoutTable.

(** [strings.Contains(s, substr)] *)
Fixpoint Contains (s substr : string) : bool :=
  String.prefix substr s
  || match s with
     | String _ rest => Contains rest substr
     | EmptyString => false
     end.

(** Modelled from the spec: [TimestampToString(pattern, baseOffset,
    timestamp)], not under [src/]: the instant [timestamp] nanoseconds after
    the epoch, shifted by [baseOffset] seconds, written through the
    translated layout (here in UTC, and under a token table). *)
Definition TimestampToString_with (table : list (string * string))
    (pattern : string) (baseOffset timestamp : Z) : option string :=
  Layout.FormatUTC
    (time.mkTime (baseOffset + timestamp / 1000000000)
                 (timestamp mod 1000000000))
    (translate table pattern).

(** Modelled from the spec: [TimestampToString] under the table of the
    spec. *)
Definition TimestampToString : string → Z → Z → option string :=
  TimestampToString_with layoutTable.

(** [TestTimestampToString] (src/time_format_test.go, lines 90 to 94): the
    date it formats has to contain [201703]. *)
Definition TestTimestampToString_passes (table : list (string * string)) : bool :=
  match TimestampToString_with table "yyyyMMddhh" 0 1489512277722684356 with
  | Some date => Contains date "201703"
  | None => false
  end.


End TimeFormat.


(** ** The built-in value providers *)

Module Providers.
Section Providers.

Import Go.
Context `{Helpers}.

(** [envValueProvider.Get] *)
Definition envValueProvider_Get (context : Context) (arguments : list value)
  : result :=
  match arguments with
  | VString key :: _ =>
      match os_LookupEnv key with
      | Some v => returns (VString v)
      | None => fails ("failed to lookup " ++ key ++ " in env")
      end
  | _ :: _ => Panic "interface conversion: interface {} is not string"
  | [] => Panic "index out of range [0] with length 0"
  end.

(** [castedValueProvider.Get] *)
Definition castedValueProvider_Get (context : Context)
    (arguments : list value) : result :=
  match arguments with
  | VString key :: rest =>
      match rest with
      | [] =>
          fails ("failed to cast to " ++ key
                 ++ " due to invalid number of arguments, Wanted 2 but had:"
                 ++ fmt_int (Z.of_nat (length arguments)))
      | a1 :: rest' =>
          if String.eqb key "time" then
            match rest' with
            | [a2] =>
                match ParseTime (AsString a1) (AsString a2) with
                | inl castedTime => returns (VTime castedTime)
                | inr err =>
                    fails ("failed to cast to time " ++ AsString a1
                           ++ " due to " ++ err)
                end
            | _ =>
                fails ("failed to cast to time due to invalid number of "
                       ++ "arguments expected 2, but had "
                       ++ fmt_int (Z.of_nat (length arguments) - 1))
            end
          else if String.eqb key "int" then returns (VInt (AsInt a1))
          else if String.eqb key "float" then returns (VFloat (AsFloat a1))
          else if String.eqb key "bool" then returns (VBool (AsBoolean a1))
          else if String.eqb key "string" then returns (VString (AsString a1))
          else fails ("failed to cast to " ++ key ++ " - unsupported type")
      end
  | _ :: _ => Panic "interface conversion: interface {} is not string"
  | [] => Panic "index out of range [0] with length 0"
  end.

(** [currentTimeProvider.Get] *)
Definition currentTimeProvider_Get (context : Context)
    (arguments : list value) : result :=
  returns (VTime time_Now).

(** [timeDiffProvider.Get], the first block: the base time. *)
Definition timeDiff_base (arguments : list value) : time.Time :=
  match arguments with
  | a0 :: _ =>
      if String.eqb (strings_ToLower (AsString a0)) "now" then time_Now
      else match AsTime a0 "" with
           | Some extractedTime => extractedTime
           | None => time.zero
           end
  | [] => time.zero
  end.

(** [timeDiffProvider.Get], the second block: the delta, in [int] and
    [int64] arithmetic. *)
Definition timeDiff_delta (arguments : list value) : time.Duration :=
  match arguments with
  | _ :: a1 :: a2 :: _ =>
      let amount := AsInt a1 in
      let unit := strings_ToLower (AsString a2) in
      if String.eqb unit "day" then mul64 (mul64 amount 24) time.Hour
      else if String.eqb unit "week"
      then mul64 (mul64 (mul64 amount 24) 7) time.Hour
      else if String.eqb unit "hour" then mul64 amount time.Hour
      else if String.eqb unit "min" then mul64 amount time.Minute
      else if String.eqb unit "sec" then mul64 amount time.Second
      else 0
  | _ => 0
  end.

(** [timeDiffProvider.Get], the third block: the format, given by a fourth
    argument only when there are exactly four. *)
Definition timeDiff_format (arguments : list value) : string :=
  match arguments with
  | [_; _; _; a3] => AsString a3
  | _ => ""
  end.

(** [timeDiffProvider.Get], the [switch] on the format. *)
Definition timeDiff_render (resultTime : time.Time) (format : string)
  : result :=
  if String.eqb format "unix" then
    returns (VInt (div64 (add64 (time.Unix resultTime)
                                (time.UnixNano resultTime)) 1000000000))
  else if String.eqb format "timestamp" then
    returns (VInt (div64 (add64 (time.Unix resultTime)
                                (time.UnixNano resultTime)) 1000000))
  else if (0 <? String.length format)%nat then
    returns (VString (time_Format resultTime
                        (TimeFormat.DateFormatToLayout format)))
  else returns (VTime resultTime).

(** [timeDiffProvider.Get] *)
Definition timeDiffProvider_Get (context : Context) (arguments : list value)
  : result :=
  let resultTime := timeDiff_base arguments in
  let durationDelta := timeDiff_delta arguments in
  let format := timeDiff_format arguments in
  let resultTime := time.Add resultTime durationDelta in
  timeDiff_render resultTime format.

(** [nilValueProvider.Get] *)
Definition nilValueProvider_Get (context : Context) (arguments : list value)
  : result :=
  returns VNil.

(** *** The dictionary-backed provider *)

(** The calls that [dictionaryProvider.Get] makes on the context and on the
    dictionary, in order. *)
Inductive call : Type :=
| CallGetInto (key : value)
| CallExists (key : string)
| CallGet (key : string).

Record dictionaryProvider : Type := mkDictionaryProvider {
  dictionaryContentKey : value
}.

(** [dictionaryProvider.Get], with the calls it made. A context that holds
    no dictionary leaves the variable nil, and the method call on it
    panics. *)
Definition dictionaryProvider_Get (p : dictionaryProvider)
    (context : Context) (arguments : list value) : result * list call :=
  match arguments with
  | [] => (fails "Expected at least one argument but had 0", [])
  | a0 :: rest =>
      let key := AsString a0 in
      let into := CallGetInto (dictionaryContentKey p) in
      match Context_GetInto context (dictionaryContentKey p), rest with
      | Some dictionary, [] =>
          if negb (Dictionary_Exists dictionary key)
          then (returns VNil, [into; CallExists key])
          else (Done (Dictionary_Get dictionary key),
                [into; CallExists key; CallGet key])
      | Some dictionary, _ :: _ =>
          (Done (Dictionary_Get dictionary key), [into; CallGet key])
      | None, _ =>
          (Panic "invalid memory address or nil pointer dereference", [into])
      end
  end.

(** [NewDictionaryProvider(contextKey)] *)
Definition NewDictionaryProvider (contextKey : value) : dictionaryProvider :=
  mkDictionaryProvider contextKey.

End Providers.
End Providers.

(** ** The storage facade ([storage/service.go]) *)

Module Storage.

Import Go.

(** Of [url.URL] the facade reads the scheme only. *)
Record url_URL : Type := mkURL { Scheme : string }.

(** What the facade takes from outside: the state of the world that the
    backends act on, the types [Object] (with its [URL()] method) and
    [io.Reader], and [url.Parse]. *)
Class Platform : Type := {
  World : Type;
  Object : Type;
  Object_URL : Object → string;
  Reader : Type;
  url_Parse : string → url_URL + error
}.

Section Facade.

Context `{Platform}.

(** A backend operation: it may read and change the world. *)
Definition IO (A : Type) : Type := World → A * World.

(** The [Service] interface as a backend implements it. The facade never
    calls a backend's [Register], which is left out. *)
Record Service : Type := mkService {
  Service_List : string → IO (list Object * option error);
  Service_Exists : string → IO (bool * option error);
  Service_StorageObject : string → IO (option Object * option error);
  Service_Download : Object → IO (option Reader * option error);
  Service_Upload : string → Reader → IO (option error);
  Service_Delete : Object → IO (option error);
  Service_Close : IO (option error)
}.

Inductive op : Type :=
| OpList | OpExists | OpStorageObject | OpDownload | OpUpload | OpDelete
| OpClose.

(** One call of a backend method: the method, the URL it was given (for
    [Close], the scheme the backend is registered under), and the error it
    returned. *)
Record event : Type := mkEvent {
  event_op : op;
  event_target : string;
  event_err : option error
}.

(** A facade operation: its result, the world after it, and the backend
    calls it made, in order. *)
Definition Run (A : Type) : Type := World → A * World * list event.

Definition pure {A : Type} (a : A) : Run A := λ w, (a, w, []).

(** A backend call, recorded. *)
Definition invoke {A : Type} (o : op) (target : string)
    (err_of : A → option error) (m : IO A) : Run A :=
  λ w, let '(a, w') := m w in (a, w', [mkEvent o target (err_of a)]).

Record storageService : Type := mkStorageService {
  registry : gmap string Service
}.

Definition getServiceForSchema (s : storageService) (URL : string)
  : Service + error :=
  match url_Parse URL with
  | inr err => inr err
  | inl parsedUrl =>
      match registry s !! Scheme parsedUrl with
      | Some result => inl result
      | None =>
          inr ("failed to lookup url schema " ++ Scheme parsedUrl
               ++ " in " ++ URL)
      end
  end.

Definition List (s : storageService) (URL : string)
  : Run (list Object * option error) :=
  match getServiceForSchema s URL with
  | inr err => pure ([], Some err)
  | inl service => invoke OpList URL snd (Service_List service URL)
  end.

Definition Exists (s : storageService) (URL : string)
  : Run (bool * option error) :=
  match getServiceForSchema s URL with
  | inr err => pure (false, Some err)
  | inl service => invoke OpExists URL snd (Service_Exists service URL)
  end.

Definition StorageObject (s : storageService) (URL : string)
  : Run (option Object * option error) :=
  match getServiceForSchema s URL with
  | inr err => pure (None, Some err)
  | inl service =>
      invoke OpStorageObject URL snd (Service_StorageObject service URL)
  end.

Definition Download (s : storageService) (object : Object)
  : Run (option Reader * option error) :=
  match getServiceForSchema s (Object_URL object) with
  | inr err => pure (None, Some err)
  | inl service =>
      invoke OpDownload (Object_URL object) snd
             (Service_Download service object)
  end.

Definition Upload (s : storageService) (URL : string) (reader : Reader)
  : Run (option error) :=
  match getServiceForSchema s URL with
  | inr err => pure (Some err)
  | inl service => invoke OpUpload URL id (Service_Upload service URL reader)
  end.

Definition Delete (s : storageService) (object : Object)
  : Run (option error) :=
  match getServiceForSchema s (Object_URL object) with
  | inr err => pure (Some err)
  | inl service =>
      invoke OpDelete (Object_URL object) id (Service_Delete service object)
  end.

(** The loop of [Close] over the entries of the registry in the order in
    which [range] yields them. *)
Fixpoint Close_loop (entries : list (string * Service)) : Run (option error) :=
  λ w,
    match entries with
    | [] => (None, w, [])
    | (scheme, service) :: rest =>
        let '(err, w', called) :=
          invoke OpClose scheme id (Service_Close service) w in
        match err with
        | Some e => (Some e, w', called)
        | None =>
            let '(r, w'', later) := Close_loop rest w' in
            (r, w'', (called ++ later)%list)
        end
    end.

(** Go leaves the order of [range] over a map open: [order] is an order
    of the entries of the registry, each entry once. *)
Definition ranges_over (order : list (string * Service))
    (s : storageService) : Prop :=
  order ≡ₚ map_to_list (registry s).

(** [storageService.Close], for the order [range] takes. *)
Definition Close (s : storageService) (order : list (string * Service))
  : Run (option error) :=
  Close_loop order.

(** The world after the backends of [entries] were closed one after the
    other, starting in [w]. *)
Definition world_after (entries : list (string * Service)) (w : World) : World :=
  foldl (λ w' entry, (Service_Close entry.2 w').2) w entries.

(** The [Close] calls on the backends of [entries], one after the other
    from [w]: each with the scheme of its entry and the error that the
    backend's [Close] returned in the world the calls before it left. *)
Fixpoint calls_of (entries : list (string * Service)) (w : World) : list event :=
  match entries with
  | [] => []
  | (scheme, service) :: rest =>
      mkEvent OpClose scheme (Service_Close service w).1
        :: calls_of rest (Service_Close service w).2
  end.

(** The [Close] of every backend of [entries], run in turn from [w],
    returns nil. *)
Definition all_close (entries : list (string * Service)) (w : World) : Prop :=
  ∀ before scheme service after,
    entries = (before ++ (scheme, service) :: after)%list →
    (Service_Close service (world_after before w)).1 = None.

(** [storageService.Register]: the facade afterwards, and the returned
    error. *)
Definition Register (s : storageService) (schema : string)
    (service : Service) : storageService * option error :=
  (mkStorageService (<[schema := service]> (registry s)), None).

(** [NewService()], given the two built-in backends
    ([fileStorageService], [NewMemoryService()], not under [src/]). *)
Definition NewService (fileService memoryService : Service)
  : storageService :=
  let result := mkStorageService ∅ in
  let result := (Register result "file" fileService).1 in
  (Register result "mem" memoryService).1.

(** The six operations all fail with [err], leave the world as it is and
    call no backend. *)
Definition refuses (s : storageService) (URL : string) (object : Object) (reader : Reader)
    (w : World) (err : error) : Prop :=
  List s URL w = (([], Some err), w, [])
  ∧ Exists s URL w = ((false, Some err), w, [])
  ∧ StorageObject s URL w = ((None, Some err), w, [])
  ∧ Download s object w = ((None, Some err), w, [])
  ∧ Upload s URL reader w = (Some err, w, [])
  ∧ Delete s object w = (Some err, w, []).

(** The six operations return what [backend] returns for the same
    arguments in the same world, and each makes that one call. *)
Definition routes_to (s : storageService) (backend : Service) (URL : string)
    (object : Object) (reader : Reader) (w : World) : Prop :=
  List s URL w
    = (Service_List backend URL w,
       [mkEvent OpList URL (Service_List backend URL w).1.2])
  ∧ Exists s URL w
    = (Service_Exists backend URL w,
       [mkEvent OpExists URL (Service_Exists backend URL w).1.2])
  ∧ StorageObject s URL w
    = (Service_StorageObject backend URL w,
       [mkEvent OpStorageObject URL (Service_StorageObject backend URL w).1.2])
  ∧ Download s object w
    = (Service_Download backend object w,
       [mkEvent OpDownload URL (Service_Download backend object w).1.2])
  ∧ Upload s URL reader w
    = (Service_Upload backend URL reader w,
       [mkEvent OpUpload URL (Service_Upload backend URL reader w).1])
  ∧ Delete s object w
    = (Service_Delete backend object w,
       [mkEvent OpDelete URL (Service_Delete backend object w).1]).

End Facade.
End Storage.


(** ** Conversions to run the providers with

    The conversion helpers of the package are not under [src/]; the spec says
    of them that they are best-effort and never fail, absent or invalid input
    giving the zero value of the target type. *)

Module Reference.

(** Modelled from the spec: [AsString], not under [src/]: a text is itself,
    a number and a truth value are written out, anything else is the empty
    text. *)
Definition AsString (v : value) : string :=
  match v with
  | VString s => s
  | VInt n => pretty n
  | VBool true => "true"
  | VBool false => "false"
  | _ => ""
  end.

(** Modelled from the spec: [AsInt], not under [src/]: a number is itself, a
    text is the integer it spells, and invalid or absent input is zero. *)
Definition AsInt (v : value) : Z :=
  match v with
  | VInt n => n
  | VString s => default 0 (Layout.atoi s)
  | _ => 0
  end.

(** Modelled from the spec: [AsFloat], not under [src/]: a float is itself,
    anything else is zero (no text is read as a float here). *)
Definition AsFloat (v : value) : float :=
  match v with
  | VFloat f => f
  | _ => 0%float
  end.

(** Modelled from the spec: [AsBoolean], not under [src/]: a truth value is
    itself, the text [true] is true, anything else is false. *)
Definition AsBoolean (v : value) : bool :=
  match v with
  | VBool b => b
  | VString s => String.eqb s "true"
  | _ => false
  end.

(** Modelled from the spec: [AsTime], not under [src/]: a time is itself,
    anything else gives nil (no text is read as a time here). *)
Definition AsTime (v : value) (layout : string) : option time.Time :=
  match v with
  | VTime t => Some t
  | _ => None
  end.

(** Modelled from the spec: [ParseTime], not under [src/]: the text parsed
    under the layout derived from the pattern, an error if it does not
    conform. *)
Definition ParseTime (input pattern : string) : time.Time + Go.error :=
  match Layout.Parse (TimeFormat.DateFormatToLayout pattern) input with
  | Layout.Parsed t => inl t
  | Layout.Refused why => inr why
  | Layout.Unmodelled => inr "layout outside the model"
  end.

(** [strings.ToLower] on ASCII letters. *)
Definition lower (c : ascii) : ascii :=
  let n := nat_of_ascii c in
  if ((65 <=? n) && (n <=? 90))%nat then ascii_of_nat (n + 32) else c.

Fixpoint ToLower (s : string) : string :=
  match s with
  | String c rest => String (lower c) (ToLower rest)
  | EmptyString => EmptyString
  end.

(** The helpers on a machine whose clock shows [now] and whose environment
    is [env]; a context is the function from keys to the dictionaries it
    holds. *)
Definition helpers (now : time.Time) (env : string → option string) : Helpers :=
  Build_Helpers AsString AsInt AsFloat AsBoolean AsTime ParseTime ToLower now
    (λ t layout, default "" (Layout.FormatUTC t layout))
    env
    (value → option Dictionary)
    (λ context key, context key).

(** A machine for the examples: the clock shows 2023-11-14 22:13:20 UTC and
    the environment is empty. *)
Definition machine : Helpers := helpers (time.mkTime 1700000000 0) (λ _, None).

(** A context that holds the map [d] under the key [dict] and nothing
    else. *)
Definition contextWith (d : MapDictionary) : value → option Dictionary :=
  λ key, match key with
         | VString "dict" => Some (MapDictionary_asDictionary d)
         | _ => None
         end.

End Reference.


(** ** A platform to run the facade on

    The world is the journal of the backend calls made so far, an object is
    its URL, a reader is the text it yields, and [url.Parse] takes the text
    before the first colon for the scheme. *)

Module Journal.

Import Go Storage.

Fixpoint schemeOf (URL : string) : option string :=
  match URL with
  | EmptyString => None
  | String c rest =>
      if Ascii.eqb c ":" then Some "" else String c <$> schemeOf rest
  end.

Definition parse (URL : string) : url_URL + error :=
  inl (mkURL (default "" (schemeOf URL))).

Definition platform : Platform :=
  Build_Platform (list string) string (λ object, object) string parse.

(** A backend that writes each call into the journal under its [name] and
    whose [Close] returns [closeError]. *)
Definition backend (name : string) (closeError : option error)
  : Service (H := platform) :=
  let note (call : string) (w : list string) : list string :=
    (w ++ [(name ++ "." ++ call)%string])%list in
  mkService (H := platform)
    (λ URL w, (([URL], None), note "List" w))
    (λ URL w, ((true, None), note "Exists" w))
    (λ URL w, ((Some URL, None), note "StorageObject" w))
    (λ object w, ((Some object, None), note "Download" w))
    (λ URL reader w, (None, note "Upload" w))
    (λ object w, (None, note "Delete" w))
    (λ w, (closeError, note "Close" w)).

(** The facade of [NewService()] over two such backends. *)
Definition service : storageService (H := platform) :=
  NewService (backend "file" None) (backend "mem" None).

(** A facade with three backends, the second of which cannot be closed. *)
Definition busy : storageService (H := platform) :=
  mkStorageService
    (<["a" := backend "A" None]>
       (<["b" := backend "B" (Some "B is busy")]>
          (<["c" := backend "C" None]> ∅))).

(** A facade that holds one backend under two schemes. *)
Definition shared : storageService (H := platform) :=
  mkStorageService
    (<["s3" := backend "B" None]> (<["s3a" := backend "B" None]> ∅)).

End Journal.


(** ** Construction of a facade for a URL ([storage/service.go]) *)

Module Construction.

Import Go Storage.

Section Construction.

Context `{Platform}.

(** A storage provider: from a credential file to the backend of a scheme;
    it may read the world. *)
Definition Provider : Type := string → IO (Service + error).

(** [NewServiceForURL(URL, credentialFile)], given the registry of storage
    providers ([NewStorageProvider().Get], not under [src/]; [None] is its
    nil) and the two built-in backends of [NewService()]. *)
Definition NewServiceForURL (providers : string → option Provider)
    (fileService memoryService : Service) (URL credentialFile : string)
  : IO (storageService + error) :=
  λ w,
    match url_Parse URL with
    | inr err => (inr err, w)
    | inl parsedURL =>
        let service := NewService fileService memoryService in
        match providers (Scheme parsedURL) with
        | Some provider =>
            let '(made, w') := provider credentialFile w in
            match made with
            | inr err =>
                (inr ("failed to get storage for url " ++ URL ++ ": " ++ err), w')
            | inl serviceForScheme =>
                match Register service (Scheme parsedURL) serviceForScheme with
                | (_, Some err) => (inr err, w')
                | (service', None) => (inl service', w')
                end
            end
        | None =>
            if negb (String.eqb (Scheme parsedURL) "file")
            then (inr ("unsupported scheme " ++ URL), w)
            else (inl service, w)
        end
    end.

End Construction.
End Construction.

(** ** A platform whose [url.Parse] can fail

    As [Journal], but a URL that starts with a colon is refused, as Go's
    [url.Parse] refuses it. *)

Module Strict.

Import Go Storage.

Definition parse (URL : string) : url_URL + error :=
  if String.prefix ":" URL then inr "missing protocol scheme"
  else Journal.parse URL.

Definition platform : Platform :=
  Build_Platform (list string) string (λ object, object) string parse.

(** A backend that writes each call into the journal under its [name] and
    whose [Close] returns [closeError]. *)
Definition backend (name : string) (closeError : option error)
  : Service (H := platform) :=
  let note (call : string) (w : list string) : list string :=
    (w ++ [(name ++ "." ++ call)%string])%list in
  mkService (H := platform)
    (λ URL w, (([URL], None), note "List" w))
    (λ URL w, ((true, None), note "Exists" w))
    (λ URL w, ((Some URL, None), note "StorageObject" w))
    (λ object w, ((Some object, None), note "Download" w))
    (λ URL reader w, (None, note "Upload" w))
    (λ object w, (None, note "Delete" w))
    (λ w, (closeError, note "Close" w)).

(** The storage providers of the examples: one for [s3], which accepts the
    credential file [secret.json] only. *)
Definition providers (scheme : string) : option (Construction.Provider (H := platform)) :=
  if String.eqb scheme "s3" then
    Some (λ credentialFile w,
            if String.eqb credentialFile "secret.json"
            then (inl (backend "s3" None), (w ++ ["read secret.json"])%list)
            else (inr "no credentials", w))
  else None.

End Strict.

(** ** The units of the time-difference provider *)

(** The seconds in each unit that [timeDiffProvider.Get] knows: the cases of
    its [switch] on the unit. *)
Definition unitSeconds : list (string * Z) :=
  [("day", 86400); ("week", 604800); ("hour", 3600); ("min", 60); ("sec", 1)].


(** * Properties *)

(** ** The registry of value providers *)

Section RegistryFacts.

Import Registry.
Context {ValueProvider : Type}.
Implicit Types (r : valueProviderRegistryImpl ValueProvider) (name : string).

Lemma Register_lookup_eq r name (p : ValueProvider) :
  registry (Register r name p) !! name = Some p.
Proof. apply lookup_insert_eq. Qed.

Lemma Register_lookup_ne r name name' (p : ValueProvider) :
  name' ≠ name → registry (Register r name' p) !! name = registry r !! name.
Proof. intros Hne. by apply lookup_insert_ne. Qed.

(** Registrations under other names leave the entry of [name] alone. *)
Lemma RegisterAll_lookup_other r name (later : list (string * ValueProvider)) :
  name ∉ later.*1 →
  registry (RegisterAll r later) !! name = registry r !! name.
Proof.
  revert r. induction later as [|[name' p'] later IH]; intros r Hnotin; [done|].
  rewrite fmap_cons, not_elem_of_cons in Hnotin. destruct Hnotin as [Hne Hrest].
  cbn. unfold RegisterAll in IH. rewrite IH by done.
  apply Register_lookup_ne. cbn in Hne. congruence.
Qed.

Lemma Get_of_lookup r name :
  Get r name = match registry r !! name with
               | Some p => Go.Done p
               | None => Go.Panic ("failed to lookup name: " ++ name)
               end.
Proof. reflexivity. Qed.

Lemma Contains_of_lookup r name :
  Contains r name = bool_decide (is_Some (registry r !! name)).
Proof.
  unfold Contains. destruct (registry r !! name) eqn:E.
  - symmetry. apply bool_decide_eq_true. eauto.
  - symmetry. apply bool_decide_eq_false. intros [? ?]. congruence.
Qed.

(** C8. Lookup in the registry of value providers: for a name that the
    registry does not hold, [Get] panics (it returns no error value) and
    [Contains] is false; after [Register(name, p)], and as long as no later
    [Register] names [name] again, [Get(name)] returns [p] and
    [Contains(name)] is true. *)
Theorem registry_Get_panics_or_returns_registered
    r name (p : ValueProvider) (later : list (string * ValueProvider)) :
  (registry r !! name = None →
     Get r name = Go.Panic ("failed to lookup name: " ++ name)
     ∧ Contains r name = false)
  ∧ (name ∉ later.*1 →
     Get (RegisterAll (Register r name p) later) name = Go.Done p
     ∧ Contains (RegisterAll (Register r name p) later) name = true).
Proof.
  split.
  - intros Habsent. unfold Get, Contains. by rewrite Habsent.
  - intros Hlater. unfold Get, Contains.
    rewrite (RegisterAll_lookup_other _ _ _ Hlater), Register_lookup_eq. done.
Qed.

End RegistryFacts.

(** The new registry does not hold [env]; once [env], [cast] and [nil] are
    registered in this order, [env] is found. *)
Lemma registry_Get_panics_or_returns_registered_witness :
  let r := Registry.NewValueProviderRegistry (ValueProvider := nat) in
  (Registry.registry r !! "env" = None
   ∧ "env" ∉ [("cast", 2%nat); ("nil", 3%nat)].*1)
  ∧ (Registry.Get r "env" = Go.Panic "failed to lookup name: env"
     ∧ Registry.Contains r "env" = false)
  ∧ (Registry.Get (Registry.RegisterAll (Registry.Register r "env" 1%nat)
                     [("cast", 2%nat); ("nil", 3%nat)]) "env" = Go.Done 1%nat
     ∧ Registry.Contains (Registry.RegisterAll (Registry.Register r "env" 1%nat)
                     [("cast", 2%nat); ("nil", 3%nat)]) "env" = true).
Proof.
  intros r.
  assert (Habsent : Registry.registry r !! "env" = None) by reflexivity.
  assert (Hlater : "env" ∉ [("cast", 2%nat); ("nil", 3%nat)].*1).
  { cbn. rewrite !not_elem_of_cons. repeat split; try discriminate.
    apply not_elem_of_nil. }
  split; [by split|].
  destruct (registry_Get_panics_or_returns_registered r "env" 1%nat
              [("cast", 2%nat); ("nil", 3%nat)]) as [Hpanic Hget].
  split; [exact (Hpanic Habsent) | exact (Hget Hlater)].
Defined.

(** ** Machine integers *)

Section Integers.

Import Go.

Lemma wrap64_small (z : Z) : - 2 ^ 63 ≤ z < 2 ^ 63 → wrap64 z = z.
Proof. intros Hz. unfold wrap64. rewrite Z.mod_small; lia. Qed.

Lemma wrap64_range (z : Z) : - 2 ^ 63 ≤ wrap64 z < 2 ^ 63.
Proof.
  unfold wrap64.
  pose proof (Z.mod_pos_bound (z + 2 ^ 63) (2 ^ 64) ltac:(lia)). lia.
Qed.

(** On an instant between 2001-09-09 01:46:40 UTC and the year 2255, the
    sum [t.Unix() + t.UnixNano()] does not wrap, and dividing it by [10^9]
    gives more than the seconds since the epoch. *)
Lemma seconds_plus_nanoseconds (t : time.Time) :
  1000000000 ≤ time.sec t < 9000000000 →
  0 ≤ time.nsec t < 1000000000 →
  div64 (add64 (time.Unix t) (time.UnixNano t)) 1000000000
  = time.sec t + (time.sec t + time.nsec t) / 1000000000
  ∧ time.Unix t < div64 (add64 (time.Unix t) (time.UnixNano t)) 1000000000.
Proof.
  intros Hsec Hnsec. unfold time.UnixNano, time.Unix, div64, add64, mul64.
  rewrite (wrap64_small (time.sec t * 1000000000)) by lia.
  rewrite (wrap64_small (time.sec t * 1000000000 + time.nsec t)) by lia.
  rewrite (wrap64_small (time.sec t + _)) by lia.
  rewrite Z.quot_div_nonneg by lia.
  replace (time.sec t + (time.sec t * 1000000000 + time.nsec t))
    with (time.sec t + time.nsec t + time.sec t * 1000000000) by lia.
  rewrite Z.div_add by lia.
  assert (1 ≤ (time.sec t + time.nsec t) / 1000000000)%Z
    by (apply Z.div_le_lower_bound; lia).
  assert ((time.sec t + time.nsec t) / 1000000000 < 11)%Z
    by (apply Z.div_lt_upper_bound; lia).
  rewrite wrap64_small by lia. lia.
Qed.

End Integers.

(** ** The built-in providers *)

Section ProviderFacts.

Import Go Providers.
Context `{Helpers}.
Implicit Types (context : Context) (arguments : list value).

(** With four arguments the fourth is the format, and [unix] and [timestamp]
    divide the sum of seconds and nanoseconds. *)
Lemma timeDiffProvider_Get_four context (a0 a1 a2 a3 : value) :
  timeDiffProvider_Get context [a0; a1; a2; a3]
  = timeDiff_render
      (time.Add (timeDiff_base [a0; a1; a2; a3]) (timeDiff_delta [a0; a1; a2; a3]))
      (AsString a3).
Proof. reflexivity. Qed.

Lemma timeDiff_render_unix (t : time.Time) :
  timeDiff_render t "unix"
  = returns (VInt (div64 (add64 (time.Unix t) (time.UnixNano t)) 1000000000)).
Proof. reflexivity. Qed.

Lemma timeDiff_render_timestamp (t : time.Time) :
  timeDiff_render t "timestamp"
  = returns (VInt (div64 (add64 (time.Unix t) (time.UnixNano t)) 1000000)).
Proof. reflexivity. Qed.

(** Whenever the result time lies between 2001-09-09 01:46:40 UTC and the
    year 2255, the format [unix] yields more than its seconds since the
    epoch. *)
Lemma timeDiffProvider_Get_unix_exceeds_seconds context (a0 a1 a2 a3 : value) :
  AsString a3 = "unix" →
  let t := time.Add (timeDiff_base [a0; a1; a2; a3])
                    (timeDiff_delta [a0; a1; a2; a3]) in
  1000000000 ≤ time.sec t < 9000000000 →
  0 ≤ time.nsec t < 1000000000 →
  ∃ n, timeDiffProvider_Get context [a0; a1; a2; a3] = returns (VInt n)
       ∧ time.Unix t < n.
Proof.
  intros Hformat t Hsec Hnsec.
  rewrite timeDiffProvider_Get_four, Hformat, timeDiff_render_unix.
  eexists. split; [reflexivity|].
  by apply seconds_plus_nanoseconds.
Qed.

(** A cast to one of the four plain types, given a value, is the conversion
    of that value. *)
Lemma castedValueProvider_Get_value context (key : string) (a1 : value)
    (rest : list value) :
  key ∈ ["int"; "float"; "bool"; "string"] →
  castedValueProvider_Get context (VString key :: a1 :: rest)
  = returns (if String.eqb key "int" then VInt (AsInt a1)
             else if String.eqb key "float" then VFloat (AsFloat a1)
             else if String.eqb key "bool" then VBool (AsBoolean a1)
             else VString (AsString a1)).
Proof.
  intros Hkey. repeat (apply elem_of_cons in Hkey as [-> | Hkey]; [reflexivity|]).
  by apply elem_of_nil in Hkey.
Qed.

(** Whatever the type name, the name alone is one argument too few. *)
Lemma castedValueProvider_Get_name_only context (key : string) :
  castedValueProvider_Get context [VString key]
  = fails ("failed to cast to " ++ key
           ++ " due to invalid number of arguments, Wanted 2 but had:1").
Proof. reflexivity. Qed.

(** C2, as amended. A cast to [int], [float], [bool] or [string] that is
    given a value (two arguments or more) returns the conversion of that
    value and no error, whatever the value; under the conversions of the
    spec a text that spells no number gives zero, so [("int", "abc")] is 0.
    Given the type name alone, [Get] returns an argument-count error and no
    value. *)
Theorem castedValueProvider_plain_types context (a1 : value)
    (rest : list value) (key : string) :
  castedValueProvider_Get context (VString "int" :: a1 :: rest)
    = returns (VInt (AsInt a1))
  ∧ castedValueProvider_Get context (VString "float" :: a1 :: rest)
    = returns (VFloat (AsFloat a1))
  ∧ castedValueProvider_Get context (VString "bool" :: a1 :: rest)
    = returns (VBool (AsBoolean a1))
  ∧ castedValueProvider_Get context (VString "string" :: a1 :: rest)
    = returns (VString (AsString a1))
  ∧ castedValueProvider_Get context [VString key]
    = fails ("failed to cast to " ++ key
             ++ " due to invalid number of arguments, Wanted 2 but had:1")
  ∧ castedValueProvider_Get (H := Reference.machine) (λ _, None)
      [VString "int"; VString "abc"] = returns (VInt 0).
Proof. repeat split; reflexivity. Qed.

(** C10. Without arguments the dictionary-backed provider returns the error
    [Expected at least one argument but had 0], with a nil value, and calls
    neither the context nor a dictionary, whatever the context holds: it
    does not panic even where the context holds no dictionary. With an
    argument it does call the context. *)
Theorem dictionaryProvider_Get_no_arguments (p : dictionaryProvider) context :
  dictionaryProvider_Get p context []
  = (Done (VNil, Some "Expected at least one argument but had 0"), [])
  ∧ ∀ (a0 : value) (more : list value),
      ∃ later, (dictionaryProvider_Get p context (a0 :: more)).2
               = CallGetInto (dictionaryContentKey p) :: later.
Proof.
  split; [reflexivity|]. intros a0 more. unfold dictionaryProvider_Get.
  destruct (Context_GetInto context (dictionaryContentKey p)) as [dictionary|];
    [|by eexists].
  destruct more; [|by eexists].
  destruct (negb (Dictionary_Exists dictionary (AsString a0))); by eexists.
Qed.

(** C5. The soft miss of the dictionary-backed provider. In a context that
    holds a dictionary under the configured key, a key that the dictionary
    does not have gives: with one argument, nil and no error; with two
    arguments or more, what the dictionary's [Get] returns for the key, which
    for a [MapDictionary] is its error [failed to lookup: key]. *)
Theorem dictionaryProvider_Get_soft_miss (p : dictionaryProvider) context
    (dictionary : Dictionary) (a0 a1 : value) (more : list value) :
  Context_GetInto context (dictionaryContentKey p) = Some dictionary →
  Dictionary_Exists dictionary (AsString a0) = false →
  (dictionaryProvider_Get p context [a0]).1 = Done (VNil, None)
  ∧ (dictionaryProvider_Get p context (a0 :: a1 :: more)).1
    = Done (Dictionary_Get dictionary (AsString a0))
  ∧ (∀ d : MapDictionary, dictionary = MapDictionary_asDictionary d →
     (dictionaryProvider_Get p context (a0 :: a1 :: more)).1
     = Done (VNil, Some ("failed to lookup: " ++ AsString a0))).
Proof.
  intros Hholds Habsent. unfold dictionaryProvider_Get.
  rewrite Hholds, Habsent. cbn. split; [done|]. split; [done|].
  intros d ->. cbn in *. unfold MapDictionary_Get, MapDictionary_Exists in *.
  by destruct (d !! AsString a0).
Qed.

End ProviderFacts.

(** C1: the code at an instant where the claim fails. For the base time
    2001-09-09 01:46:40 UTC ([10^9] seconds after the epoch) and a delta of
    zero seconds, the format [unix] yields 1000000001 where the seconds
    since the epoch are 1000000000, and the format [timestamp] yields
    1000000001000 where the milliseconds since the epoch are 1000000000000:
    [timeDiffProvider.Get] divides [Unix() + UnixNano()], seconds added to
    nanoseconds. *)
Theorem timeDiffProvider_Get_adds_seconds_to_nanoseconds :
  let t := time.mkTime 1000000000 0 in
  let arguments format := [VTime t; VInt 0; VString "sec"; VString format] in
  let Get := Providers.timeDiffProvider_Get (H := Reference.machine) (λ _, None) in
  Get (arguments "unix") = returns (VInt 1000000001)
  ∧ time.Unix t = 1000000000
  ∧ Get (arguments "timestamp") = returns (VInt 1000000001000)
  ∧ time.UnixMilli t = 1000000000000
  ∧ Get [VString "now"; VInt 1; VString "day"; VString "unix"]
    = returns (VInt 1700086401)
  ∧ time.Unix (time.Add (time_Now (Helpers := Reference.machine))
                        (24 * time.Hour)) = 1700086400.
Proof. repeat split; vm_compute; reflexivity. Qed.

(** C2, the claim as stated fails: given the type name [int] alone, the
    cast provider returns an error, not the zero value. *)
Lemma castedValueProvider_name_only_is_an_error :
  Providers.castedValueProvider_Get (H := Reference.machine) (λ _, None)
    [VString "int"]
  = Go.Done (VNil, Some ("failed to cast to int due to invalid number of "
                         ++ "arguments, Wanted 2 but had:1"))
  ∧ Providers.castedValueProvider_Get (H := Reference.machine) (λ _, None)
      [VString "int"] ≠ returns (VInt 0).
Proof. split; [reflexivity | discriminate]. Qed.

(** A context that holds the map [{a: 1}] under the key [dict]; the key [b]
    is looked up, alone and with a second argument. *)
Lemma dictionaryProvider_Get_soft_miss_witness :
  let p := Providers.NewDictionaryProvider (VString "dict") in
  let d : MapDictionary := {[ "a" := VInt 1 ]} in
  (Providers.dictionaryProvider_Get (H := Reference.machine) p
     (Reference.contextWith d) [VString "b"]).1 = Go.Done (VNil, None)
  ∧ (Providers.dictionaryProvider_Get (H := Reference.machine) p
       (Reference.contextWith d) [VString "b"; VInt 0]).1
    = Go.Done (VNil, Some "failed to lookup: b").
Proof.
  intros p d.
  destruct (dictionaryProvider_Get_soft_miss (H := Reference.machine) p
              (Reference.contextWith d) (MapDictionary_asDictionary d)
              (VString "b") (VInt 0) [] eq_refl eq_refl)
    as (Hone & _ & Hmap).
  split; [exact Hone | exact (Hmap d eq_refl)].
Defined.

(** ** The storage facade *)

Section StorageFacts.

Import Go Storage.
Context `{Platform}.
Implicit Types (s : storageService) (w : World) (backend : Service).

Lemma getServiceForSchema_unregistered s (URL : string) (u : url_URL) :
  url_Parse URL = inl u →
  registry s !! Scheme u = None →
  getServiceForSchema s URL
  = inr ("failed to lookup url schema " ++ Scheme u ++ " in " ++ URL).
Proof. intros Hparse Hnone. unfold getServiceForSchema. by rewrite Hparse, Hnone. Qed.

Lemma getServiceForSchema_registered s (URL : string) (u : url_URL) backend :
  url_Parse URL = inl u →
  registry s !! Scheme u = Some backend →
  getServiceForSchema s URL = inl backend.
Proof. intros Hparse Hsome. unfold getServiceForSchema. by rewrite Hparse, Hsome. Qed.

Lemma invoke_run {A : Type} (o : op) (target : string)
    (err_of : A → option error) (m : IO A) w :
  invoke o target err_of m w = (m w, [mkEvent o target (err_of (m w).1)]).
Proof. unfold invoke. by destruct (m w). Qed.

Lemma refuses_unregistered s (URL : string) (u : url_URL) (object : Object)
    (reader : Reader) w :
  url_Parse URL = inl u →
  Object_URL object = URL →
  registry s !! Scheme u = None →
  refuses s URL object reader w
    ("failed to lookup url schema " ++ Scheme u ++ " in " ++ URL).
Proof.
  intros Hparse Hobject Hnone.
  pose proof (getServiceForSchema_unregistered s URL u Hparse Hnone) as Hget.
  unfold refuses, List, Exists, StorageObject, Download, Upload, Delete.
  rewrite Hobject, Hget. done.
Qed.

Lemma routes_to_registered s (URL : string) (u : url_URL) (object : Object)
    (reader : Reader) w backend :
  url_Parse URL = inl u →
  Object_URL object = URL →
  registry s !! Scheme u = Some backend →
  routes_to s backend URL object reader w.
Proof.
  intros Hparse Hobject Hsome.
  pose proof (getServiceForSchema_registered s URL u backend Hparse Hsome) as Hget.
  unfold routes_to, List, Exists, StorageObject, Download, Upload, Delete.
  rewrite Hobject, Hget, !invoke_run. done.
Qed.

(** C6. Dispatch by scheme. For a URL that parses (for [Download] and
    [Delete], the URL of the object): when the registry has no backend for
    its scheme, each of [List], [Exists], [StorageObject], [Download],
    [Upload], [Delete] fails with the scheme-lookup error, calls no backend
    and leaves the world unchanged; when a backend is registered for the
    scheme, each returns exactly what that backend returns for the same
    arguments, through one call of it. *)
Theorem storageService_dispatches_by_scheme s (URL : string) (u : url_URL)
    (object : Object) (reader : Reader) w :
  url_Parse URL = inl u →
  Object_URL object = URL →
  (registry s !! Scheme u = None →
   refuses s URL object reader w
     ("failed to lookup url schema " ++ Scheme u ++ " in " ++ URL))
  ∧ (∀ backend, registry s !! Scheme u = Some backend →
     routes_to s backend URL object reader w).
Proof.
  intros Hparse Hobject. split.
  - by apply refuses_unregistered.
  - intros backend. by apply routes_to_registered.
Qed.

(** In a list of entries without a repeated key, a key that occurs has one
    entry. *)
Lemma one_entry_per_key {V : Type} (l : list (string * V)) (k : string) (v : V) :
  NoDup l.*1 → (k, v) ∈ l →
  length (filter (λ e, e.1 = k) l) = 1%nat.
Proof.
  induction l as [|[k' v'] l IH]; intros Hnodup Hin.
  - by apply elem_of_nil in Hin.
  - rewrite fmap_cons in Hnodup. apply NoDup_cons in Hnodup as [Hk Hl].
    rewrite filter_cons. cbn in *.
    assert (Hkeys : ∀ x, (k', x) ∈ l → False).
    { intros x Hx. apply Hk. apply list_elem_of_fmap. by exists (k', x). }
    apply elem_of_cons in Hin as [Heq | Hin].
    + inversion Heq; subst k' v'. rewrite decide_True by done. cbn. f_equal.
      clear IH Hl Hk. induction l as [|[k'' v''] l IHl]; [done|].
      rewrite filter_cons. cbn. rewrite decide_False.
      * apply IHl. intros x Hx. apply (Hkeys x). by right.
      * intros ->. apply (Hkeys v''). by left.
    + rewrite decide_False; [by apply IH|].
      intros ->. by apply (Hkeys v).
Qed.

(** C9. The registry keeps one backend per scheme and the last
    registration wins: after [Register(scheme, b1)] and then
    [Register(scheme, b2)], both of which return nil, the registry is what a
    single [Register(scheme, b2)] gives, it lists the scheme once, and every
    operation on a URL of that scheme goes to [b2]. *)
Theorem Register_last_registration_wins s (scheme : string) (b1 b2 : Service)
    (URL : string) (u : url_URL) (object : Object) (reader : Reader) w :
  url_Parse URL = inl u →
  Scheme u = scheme →
  Object_URL object = URL →
  let first := Register s scheme b1 in
  let second := Register first.1 scheme b2 in
  first.2 = None ∧ second.2 = None
  ∧ registry second.1 = registry (Register s scheme b2).1
  ∧ registry second.1 !! scheme = Some b2
  ∧ NoDup (map_to_list (registry second.1)).*1
  ∧ length (filter (λ e, e.1 = scheme) (map_to_list (registry second.1))) = 1%nat
  ∧ getServiceForSchema second.1 URL = inl b2
  ∧ routes_to second.1 b2 URL object reader w.
Proof.
  intros Hparse Hscheme Hobject first second.
  assert (Hlookup : registry second.1 !! scheme = Some b2)
    by apply lookup_insert_eq.
  split; [done|]. split; [done|].
  split; [cbn; apply insert_insert_eq|].
  split; [done|].
  split; [apply NoDup_fst_map_to_list|].
  split.
  { apply (one_entry_per_key _ scheme b2); [apply NoDup_fst_map_to_list|].
    by apply elem_of_map_to_list. }
  subst scheme.
  split; [by apply (getServiceForSchema_registered _ _ u)|].
  by apply (routes_to_registered _ _ u).
Qed.

Lemma world_after_cons (entry : string * Service)
    (entries : list (string * Service)) w :
  world_after (entry :: entries) w
  = world_after entries (Service_Close entry.2 w).2.
Proof. reflexivity. Qed.

Lemma all_close_nil w : all_close [] w.
Proof. intros [|entry before] scheme service after Hsplit; discriminate. Qed.

Lemma all_close_cons (entry : string * Service)
    (entries : list (string * Service)) w :
  all_close (entry :: entries) w
  ↔ (Service_Close entry.2 w).1 = None
    ∧ all_close entries (Service_Close entry.2 w).2.
Proof.
  split.
  - intros Hall. split.
    + destruct entry as [scheme service]. by apply (Hall [] scheme service entries).
    + intros before scheme service after ->.
      rewrite <- world_after_cons. by eapply (Hall (entry :: before)).
  - intros [Hhead Hrest] [|first before] scheme service after Hsplit.
    + injection Hsplit as -> _. exact Hhead.
    + injection Hsplit as -> ->. rewrite world_after_cons. by eapply Hrest.
Qed.

(** What the loop of [Close] does on any list of entries, in terms of the
    backends' own [Close]: it runs the [Close] of the entries of a prefix,
    one after the other, each in the world the one before left; it ends with
    the first one that returns an error, which it returns; it returns nil
    after running them all. *)
Lemma Close_loop_runs (entries : list (string * Service)) w :
  ∃ closed later : list (string * Service),
    entries = (closed ++ later)%list
    ∧ (Close_loop entries w).2 = calls_of closed w
    ∧ (Close_loop entries w).1.2 = world_after closed w
    ∧ match (Close_loop entries w).1.1 with
      | Some err =>
          ∃ before scheme service,
            closed = (before ++ [(scheme, service)])%list
            ∧ all_close before w
            ∧ (Service_Close service (world_after before w)).1 = Some err
      | None => later = [] ∧ all_close closed w
      end.
Proof.
  revert w. induction entries as [|[scheme service] rest IH]; intros w.
  - exists [], []. cbn. repeat split; apply all_close_nil.
  - cbn [Close_loop]. rewrite invoke_run.
    destruct (Service_Close service w) as [[err|] w'] eqn:Hclose.
    + exists [(scheme, service)], rest. cbn [calls_of fst snd].
      rewrite world_after_cons. cbn [fst snd]. rewrite Hclose.
      split; [done|]. split; [done|]. split; [done|].
      exists [], scheme, service. cbn [world_after foldl]. rewrite Hclose.
      split; [done|]. split; [apply all_close_nil | done].
    + destruct (IH w') as (closed & later & Hsplit & Hcalls & Hworld & Herr).
      destruct (Close_loop rest w') as [[r w''] called] eqn:Hloop.
      cbn [fst snd] in *.
      exists ((scheme, service) :: closed), later.
      cbn [calls_of]. rewrite world_after_cons. cbn [fst snd].
      rewrite Hclose. cbn [fst snd].
      split; [by rewrite Hsplit|].
      split; [by rewrite Hcalls|]. split; [done|].
      destruct r as [err|].
      * destruct Herr as (before & scheme' & service' & -> & Hbefore & Hlast).
        exists ((scheme, service) :: before), scheme', service'.
        split; [done|]. rewrite world_after_cons. cbn [fst snd].
        rewrite Hclose. cbn [fst snd].
        split; [|done]. apply all_close_cons. cbn [fst snd]. by rewrite Hclose.
      * destruct Herr as [-> Hall]. split; [done|].
        apply all_close_cons. cbn [fst snd]. by rewrite Hclose.
Qed.

(** C7, as amended. [Close] closes the entries of the registry one at a
    time, in the order in which [range] yields them, whatever that order is.
    It runs the backends' [Close] on a prefix of that order, once for each
    scheme of the prefix and for no scheme twice, each call in the world the
    call before it left; the calls it records and the world it leaves are
    those of that prefix. When a call returns an error, [Close] returns that
    error, every call before it returned nil, and the entries after it are
    not closed. When it returns nil, the backend of every registered scheme
    was closed. It returns nil exactly when the [Close] of every entry, run
    in turn, returns nil. *)
Theorem Close_returns_first_error s (order : list (string * Service)) w :
  ranges_over order s →
  ∃ closed later : list (string * Service),
    order = (closed ++ later)%list
    ∧ NoDup closed.*1
    ∧ (∀ scheme, scheme ∈ later.*1 → scheme ∉ closed.*1)
    ∧ (Close s order w).2 = calls_of closed w
    ∧ (Close s order w).1.2 = world_after closed w
    ∧ match (Close s order w).1.1 with
      | Some err =>
          ∃ before scheme service,
            closed = (before ++ [(scheme, service)])%list
            ∧ all_close before w
            ∧ (Service_Close service (world_after before w)).1 = Some err
      | None =>
          later = []
          ∧ all_close closed w
          ∧ ∀ scheme, is_Some (registry s !! scheme) ↔ scheme ∈ closed.*1
      end
    ∧ ((Close s order w).1.1 = None ↔ all_close order w).
Proof.
  intros Hrange. unfold Close.
  assert (Hnodup : NoDup order.*1).
  { unfold ranges_over in Hrange. rewrite Hrange. apply NoDup_fst_map_to_list. }
  assert (Hkeys : ∀ scheme, is_Some (registry s !! scheme) ↔ scheme ∈ order.*1).
  { intros scheme. unfold ranges_over in Hrange. rewrite Hrange.
    rewrite list_elem_of_fmap. split.
    - intros [b Hb]. exists (scheme, b). split; [done|].
      by apply elem_of_map_to_list.
    - intros ([k b] & -> & Hin). apply elem_of_map_to_list in Hin. by exists b. }
  destruct (Close_loop_runs order w)
    as (closed & later & Hsplit & Hcalls & Hworld & Herr).
  exists closed, later.
  rewrite Hsplit, fmap_app in Hnodup.
  apply NoDup_app in Hnodup as (Hclosed & Hdisjoint & _).
  split; [done|]. split; [done|].
  split; [intros scheme Hlater Hin; by apply (Hdisjoint scheme)|].
  split; [done|]. split; [done|].
  destruct ((Close_loop order w).1.1) as [err|] eqn:Hresult.
  - destruct Herr as (before & scheme & service & Hlast & Hbefore & Hfails).
    split; [by exists before, scheme, service|].
    split; [discriminate|]. intros Hall. exfalso.
    rewrite Hlast, <- app_assoc in Hsplit. cbn in Hsplit.
    rewrite (Hall before scheme service later Hsplit) in Hfails. discriminate.
  - destruct Herr as [-> Hall]. rewrite app_nil_r in Hsplit. subst closed.
    split; [|done]. split; [done|]. split; [done|]. exact Hkeys.
Qed.

End StorageFacts.


(** The facade of [NewService()]: [ftp] has no backend, [mem] has one. *)
Lemma storageService_dispatches_by_scheme_witness :
  Storage.refuses (H := Journal.platform) Journal.service "ftp://host/path"
    "ftp://host/path" "data" []
    "failed to lookup url schema ftp in ftp://host/path"
  ∧ Storage.routes_to (H := Journal.platform) Journal.service
      (Journal.backend "mem" None) "mem://bucket/a" "mem://bucket/a" "data" [].
Proof.
  split.
  - exact (proj1 (storageService_dispatches_by_scheme (H := Journal.platform)
                    Journal.service "ftp://host/path" (Storage.mkURL "ftp")
                    "ftp://host/path" "data" [] eq_refl eq_refl) eq_refl).
  - exact (proj2 (storageService_dispatches_by_scheme (H := Journal.platform)
                    Journal.service "mem://bucket/a" (Storage.mkURL "mem")
                    "mem://bucket/a" "data" [] eq_refl eq_refl)
                 (Journal.backend "mem" None) eq_refl).
Defined.

(** [mem] registered twice on the facade of [NewService()]: the second
    backend serves [mem://bucket/a]. *)
Lemma Register_last_registration_wins_witness :
  let first := Storage.Register (H := Journal.platform) Journal.service "mem"
                 (Journal.backend "one" None) in
  let second := Storage.Register first.1 "mem" (Journal.backend "two" None) in
  first.2 = None ∧ second.2 = None
  ∧ Storage.List second.1 "mem://bucket/a" []
    = (["mem://bucket/a"], None, ["two.List"],
       [Storage.mkEvent Storage.OpList "mem://bucket/a" None]).
Proof.
  intros first second.
  destruct (Register_last_registration_wins (H := Journal.platform)
              Journal.service "mem" (Journal.backend "one" None)
              (Journal.backend "two" None) "mem://bucket/a"
              (Storage.mkURL "mem") "mem://bucket/a" "data" []
              eq_refl eq_refl eq_refl)
    as (Hfirst & Hsecond & _ & _ & _ & _ & _ & Hlist & _).
  split; [exact Hfirst|]. split; [exact Hsecond|]. exact Hlist.
Defined.

(** Three backends closed in the order [a], [b], [c], where [b] fails: [a]
    and [b] are closed, [c] is not, and the error of [b] is returned. *)
Lemma Close_returns_first_error_witness :
  let order := [("a", Journal.backend "A" None);
                ("b", Journal.backend "B" (Some "B is busy"));
                ("c", Journal.backend "C" None)] in
  Storage.ranges_over (H := Journal.platform) order Journal.busy
  ∧ Storage.Close Journal.busy order []
    = (Some "B is busy", ["A.Close"; "B.Close"],
       [Storage.mkEvent Storage.OpClose "a" None;
        Storage.mkEvent Storage.OpClose "b" (Some "B is busy")])
  ∧ ∃ closed later : list (string * Storage.Service (H := Journal.platform)),
      order = (closed ++ later)%list
      ∧ NoDup closed.*1
      ∧ (Storage.Close Journal.busy order []).2 = Storage.calls_of closed []
      ∧ (Storage.Close Journal.busy order []).1.2 = Storage.world_after closed []
      ∧ ¬ Storage.all_close order [].
Proof.
  intros order.
  assert (Hrange : Storage.ranges_over (H := Journal.platform) order Journal.busy).
  { unfold Storage.ranges_over, Journal.busy, order. cbn [Storage.registry].
    rewrite !map_to_list_insert, map_to_list_empty by (vm_compute; reflexivity).
    reflexivity. }
  split; [exact Hrange|]. split; [reflexivity|].
  destruct (Close_returns_first_error (H := Journal.platform) Journal.busy
              order [] Hrange)
    as (closed & later & Hsplit & Hnodup & _ & Hcalls & Hworld & _ & Hnil).
  exists closed, later. repeat split; try done.
  intros Hall. apply Hnil in Hall. discriminate Hall.
Defined.

(** One backend registered under the schemes [s3] and [s3a]: in either
    order of [range], [Close] runs the [Close] of that backend twice. *)
Lemma Close_closes_a_shared_backend_twice :
  let B := Journal.backend "B" None in
  let order := [("s3", B); ("s3a", B)] in
  Storage.ranges_over (H := Journal.platform) order Journal.shared
  ∧ Storage.ranges_over (H := Journal.platform) (reverse order) Journal.shared
  ∧ Storage.Close Journal.shared order []
    = (None, ["B.Close"; "B.Close"],
       [Storage.mkEvent Storage.OpClose "s3" None;
        Storage.mkEvent Storage.OpClose "s3a" None])
  ∧ Storage.Close Journal.shared (reverse order) []
    = (None, ["B.Close"; "B.Close"],
       [Storage.mkEvent Storage.OpClose "s3a" None;
        Storage.mkEvent Storage.OpClose "s3" None])
  ∧ ¬ NoDup order.*2.
Proof.
  intros B order.
  assert (Hrange : Storage.ranges_over (H := Journal.platform) order Journal.shared).
  { unfold Storage.ranges_over, Journal.shared, order, B. cbn [Storage.registry].
    rewrite !map_to_list_insert, map_to_list_empty by (vm_compute; reflexivity).
    reflexivity. }
  split; [exact Hrange|].
  split; [unfold Storage.ranges_over in *; by rewrite reverse_Permutation|].
  split; [reflexivity|]. split; [reflexivity|].
  cbn. intros Hnodup. apply NoDup_cons in Hnodup as [Hnotin _].
  apply Hnotin. by left.
Defined.

(** ** Date patterns *)

Section TimeFormatFacts.

Import TimeFormat.
Implicit Types (table : list (string * string)) (input pattern : string).













(** The repository's two tests on the month, under the table and under the
    table with [MM] written without padding: [TestGetTimeLayout] asserts the
    layout [2006-1-02 15:04:05 MST], which the unpadded table gives and the
    table does not; [TestTimestampToString] asserts that the date for
    [yyyyMMddhh] contains [201703], which the table gives and the unpadded
    table, with [201731405], does not. *)
Lemma tests_disagree_on_the_month :
  GetTimeLayout TestGetTimeLayout_settings ≠ TestGetTimeLayout_expected
  ∧ translate unpaddedTable "yyyy-MM-dd HH:mm:ss z" = TestGetTimeLayout_expected
  ∧ TestTimestampToString_passes layoutTable = true
  ∧ TimestampToString_with unpaddedTable "yyyyMMddhh" 0 1489512277722684356
    = Some "201731405"
  ∧ TestTimestampToString_passes unpaddedTable = false.
Proof.
  split; [vm_compute; discriminate|].
  repeat split; vm_compute; reflexivity.
Qed.

End TimeFormatFacts.





(** * Further properties of the code *)

(** ** The registry of value providers *)

Section RegistryMore.

Import Registry.
Context {ValueProvider : Type}.
Implicit Types (r : valueProviderRegistryImpl ValueProvider) (name : string).

(** X1. [Contains] tells whether [Get] is safe: it is true exactly when
    [Get] returns a provider, and false exactly when [Get] panics. *)
Theorem Contains_iff_Get_returns r name :
  (Contains r name = true ↔ ∃ p, Get r name = Go.Done p)
  ∧ (Contains r name = false ↔ ∃ msg, Get r name = Go.Panic msg).
Proof.
  unfold Contains, Get. destruct (registry r !! name) as [p|]; split; split;
    try done; try (intros [? ?]; done); intros _; by eexists.
Qed.

(** X2. Registering a provider under one name changes neither [Get] nor
    [Contains] for any other name. *)
Theorem Register_leaves_other_names r name name' (p : ValueProvider) :
  name' ≠ name →
  Get (Register r name' p) name = Get r name
  ∧ Contains (Register r name' p) name = Contains r name.
Proof.
  intros Hne. unfold Get, Contains. by rewrite Register_lookup_ne.
Qed.

Lemma RegisterAll_snoc r (calls : list (string * ValueProvider))
    (c : string * ValueProvider) :
  RegisterAll r (calls ++ [c])%list = Register (RegisterAll r calls) c.1 c.2.
Proof. unfold RegisterAll. by rewrite foldl_app. Qed.

(** X3. After any run of registrations on a new registry, [Get(name)]
    returns the provider of the last registration made under [name], and
    panics when none was made under it. *)
Theorem Get_returns_last_registration (calls : list (string * ValueProvider))
    name :
  Get (RegisterAll NewValueProviderRegistry calls) name
  = match last (filter (λ c, c.1 = name) calls) with
    | Some c => Go.Done c.2
    | None => Go.Panic ("failed to lookup name: " ++ name)
    end.
Proof.
  induction calls as [|[name' p] calls IH] using rev_ind; [done|].
  rewrite RegisterAll_snoc, filter_app. cbn [fst snd].
  destruct (decide (name' = name)) as [->|Hne].
  - rewrite filter_cons, decide_True, filter_nil by done.
    rewrite last_snoc. unfold Get. by rewrite Register_lookup_eq.
  - rewrite filter_cons, decide_False, filter_nil, app_nil_r by done.
    rewrite <- IH. unfold Get. by rewrite Register_lookup_ne.
Qed.

End RegistryMore.

(** Registering [cast] on a registry that holds [env] leaves [env] as it
    was. *)
Lemma Register_leaves_other_names_witness :
  let r := Registry.Register (Registry.NewValueProviderRegistry (ValueProvider := nat))
             "env" 1%nat in
  "cast" ≠ "env"
  ∧ Registry.Get (Registry.Register r "cast" 2%nat) "env" = Go.Done 1%nat
  ∧ Registry.Contains (Registry.Register r "cast" 2%nat) "env" = true.
Proof.
  intros r. assert (Hne : "cast" ≠ "env") by discriminate.
  split; [exact Hne|].
  destruct (Register_leaves_other_names r "env" "cast" 2%nat Hne) as [Hget Hcontains].
  split; [by rewrite Hget | by rewrite Hcontains].
Defined.

(** ** The built-in providers *)

Section ProviderMore.

Import Go Providers.
Context `{Helpers}.
Implicit Types (context : Context) (arguments : list value).

(** X4. The environment provider, given a name, returns the value of the
    variable exactly when it is set, and an error exactly when it is not;
    further arguments are ignored. *)
Theorem envValueProvider_Get_set_or_error context (key : string)
    (more : list value) :
  (∀ v, os_LookupEnv key = Some v ↔
        envValueProvider_Get context (VString key :: more) = returns (VString v))
  ∧ (os_LookupEnv key = None ↔
     envValueProvider_Get context (VString key :: more)
     = fails ("failed to lookup " ++ key ++ " in env")).
Proof.
  cbn. destruct (os_LookupEnv key) as [v'|]; split; try intros v; split;
    try done; try congruence; unfold returns, fails; congruence.
Qed.

(** X5. The environment provider and the cast provider take [arguments[0]]
    as a string before any check: each panics exactly when there is no
    argument or the first one is not a string. *)
Theorem env_and_cast_panic_without_string arguments context :
  ((∃ msg, envValueProvider_Get context arguments = Panic msg)
   ↔ ∀ key more, arguments ≠ VString key :: more)
  ∧ ((∃ msg, castedValueProvider_Get context arguments = Panic msg)
     ↔ ∀ key more, arguments ≠ VString key :: more).
Proof.
  assert (Hcast : ∀ key more, ∃ r,
            castedValueProvider_Get context (VString key :: more) = Done r).
  { intros key more. cbn. destruct more as [|a1 more]; [by eexists|].
    destruct (String.eqb key "time").
    - destruct more as [|a2 [|a3 more]]; try by eexists.
      destruct (ParseTime (AsString a1) (AsString a2)); by eexists.
    - repeat (match goal with |- context [if ?b then _ else _] => destruct b end;
              try by eexists). }
  assert (Henv : ∀ key more, ∃ r,
            envValueProvider_Get context (VString key :: more) = Done r).
  { intros key more. cbn. destruct (os_LookupEnv key); by eexists. }
  split; split.
  - intros [msg Hpanic] key more ->. destruct (Henv key more) as [r Hr]. congruence.
  - intros Hnot. destruct arguments as [|[] more]; try by eexists.
    by destruct (Hnot s more).
  - intros [msg Hpanic] key more ->. destruct (Hcast key more) as [r Hr]. congruence.
  - intros Hnot. destruct arguments as [|[] more]; try by eexists.
    by destruct (Hnot s more).
Qed.

(** X6. A cast to [time] needs exactly a value and a format: with one
    further argument, or with three or more, it returns an argument-count
    error that names the number of further arguments, whatever they are. *)
Theorem castedValueProvider_Get_time_arity context (rest : list value) :
  rest ≠ [] →
  length rest ≠ 2%nat →
  castedValueProvider_Get context (VString "time" :: rest)
  = fails ("failed to cast to time due to invalid number of arguments "
           ++ "expected 2, but had " ++ fmt_int (Z.of_nat (length rest))).
Proof.
  intros Hsome Hnot2. destruct rest as [|a1 [|a2 [|a3 rest]]]; try done.
  cbn [castedValueProvider_Get String.eqb Ascii.eqb Bool.eqb length].
  assert (Heq : (Z.of_nat (S (S (S (S (length rest))))) - 1)%Z
                = Z.of_nat (S (S (S (length rest))))) by lia.
  cbn [length] in *. by rewrite Heq.
Qed.

(** X7. A cast to a type name other than the five known ones, given a
    value, returns the error [unsupported type]. *)
Theorem castedValueProvider_Get_unsupported context (key : string) (a1 : value)
    (rest : list value) :
  key ∉ ["time"; "int"; "float"; "bool"; "string"] →
  castedValueProvider_Get context (VString key :: a1 :: rest)
  = fails ("failed to cast to " ++ key ++ " - unsupported type").
Proof.
  intros Hkey. rewrite !not_elem_of_cons in Hkey.
  destruct Hkey as (Htime & Hint & Hfloat & Hbool & Hstring & _).
  cbn. by rewrite !(proj2 (String.eqb_neq _ _)) by done.
Qed.

End ProviderMore.

(** ** The time-difference provider *)

Section TimeDiffMore.

Import Go Providers.
Context `{Helpers}.
Implicit Types (context : Context) (arguments : list value).

(** Adding whole seconds moves the second and keeps the nanoseconds. *)
Lemma Add_whole_seconds (t : time.Time) (k : Z) :
  0 ≤ time.nsec t < 1000000000 →
  time.Add t (k * 1000000000) = time.mkTime (time.sec t + k) (time.nsec t).
Proof.
  intros Hnsec. unfold time.Add.
  rewrite Z.quot_mul, Z.rem_mul, Z.add_0_r by lia.
  destruct (Z.leb_spec 1000000000 (time.nsec t)); [lia|].
  destruct (Z.ltb_spec (time.nsec t) 0); [lia | done].
Qed.

(** The delta of a known unit, as long as it stays within 9 * 10^9
    seconds, is the amount times the seconds of the unit. *)
Lemma timeDiff_delta_unit (a0 a1 a2 : value) (more : list value)
    (unit : string) (k : Z) :
  (unit, k) ∈ unitSeconds →
  strings_ToLower (AsString a2) = unit →
  (-9000000000 ≤ AsInt a1 * k ≤ 9000000000)%Z →
  timeDiff_delta (a0 :: a1 :: a2 :: more) = AsInt a1 * k * 1000000000.
Proof.
  intros Hunit Hlower Hrange. unfold timeDiff_delta. rewrite Hlower.
  unfold unitSeconds in Hunit.
  repeat (apply elem_of_cons in Hunit as [[= -> ->] | Hunit]);
    [.. | by apply elem_of_nil in Hunit];
    cbn [String.eqb Ascii.eqb Bool.eqb];
    unfold mul64, time.Hour, time.Minute, time.Second;
    rewrite ?(wrap64_small (AsInt a1 * 24)) by lia;
    rewrite ?(wrap64_small (AsInt a1 * 24 * 7)) by lia;
    rewrite wrap64_small by lia; lia.
Qed.

Lemma timeDiff_format_not_four arguments :
  length arguments ≠ 4%nat → timeDiff_format arguments = "".
Proof. by destruct arguments as [|? [|? [|? [|? [|? ?]]]]]. Qed.

(** Without a format the provider returns the computed time. *)
Lemma timeDiffProvider_Get_no_format context arguments :
  timeDiff_format arguments = "" →
  timeDiffProvider_Get context arguments
  = returns (VTime (time.Add (timeDiff_base arguments) (timeDiff_delta arguments))).
Proof. intros Hformat. unfold timeDiffProvider_Get. by rewrite Hformat. Qed.

(** X8. The time-difference provider never fails: whatever the arguments,
    none included, it returns a value and no error, and it does not
    panic. *)
Theorem timeDiffProvider_Get_never_fails context arguments :
  ∃ v, timeDiffProvider_Get context arguments = returns v.
Proof.
  unfold timeDiffProvider_Get, timeDiff_render.
  repeat (match goal with |- context [if ?b then _ else _] => destruct b end;
          try by eexists).
Qed.

(** X9. The format is honoured only when there are exactly four arguments:
    with any other number of them, five or more included, the provider
    returns the computed time itself. *)
Theorem timeDiffProvider_Get_format_needs_four context arguments :
  length arguments ≠ 4%nat →
  timeDiffProvider_Get context arguments
  = returns (VTime (time.Add (timeDiff_base arguments) (timeDiff_delta arguments))).
Proof.
  intros Hlen. apply timeDiffProvider_Get_no_format.
  by apply timeDiff_format_not_four.
Qed.

(** X10. With an amount and a known unit (in any letter case that
    [strings.ToLower] folds), the result time is the base time moved by the
    amount times the unit: 86400 seconds a day, 604800 a week, 3600 an hour,
    60 a minute; the nanoseconds stay. This holds while the move is within
    9 * 10^9 seconds, where the [int64] arithmetic of the delta does not
    wrap; without a format argument that time is the value returned. *)
Theorem timeDiffProvider_Get_moves_by_unit context (a0 a1 a2 : value)
    (unit : string) (k : Z) :
  (unit, k) ∈ unitSeconds →
  strings_ToLower (AsString a2) = unit →
  (-9000000000 ≤ AsInt a1 * k ≤ 9000000000)%Z →
  0 ≤ time.nsec (timeDiff_base [a0; a1; a2]) < 1000000000 →
  timeDiffProvider_Get context [a0; a1; a2]
  = returns (VTime (time.mkTime
                      (time.sec (timeDiff_base [a0; a1; a2]) + AsInt a1 * k)
                      (time.nsec (timeDiff_base [a0; a1; a2])))).
Proof.
  intros Hunit Hlower Hrange Hnsec.
  rewrite timeDiffProvider_Get_no_format by done.
  rewrite (timeDiff_delta_unit a0 a1 a2 [] unit k) by done.
  by rewrite Add_whole_seconds.
Qed.

(** X11. A unit that is none of day, week, hour, min, sec contributes no
    delta: the result is the base time, whatever the amount. *)
Theorem timeDiffProvider_Get_unknown_unit context (a0 a1 a2 : value) :
  strings_ToLower (AsString a2) ∉ unitSeconds.*1 →
  0 ≤ time.nsec (timeDiff_base [a0; a1; a2]) < 1000000000 →
  timeDiffProvider_Get context [a0; a1; a2]
  = returns (VTime (timeDiff_base [a0; a1; a2])).
Proof.
  intros Hunit Hnsec. cbn in Hunit. rewrite !not_elem_of_cons in Hunit.
  destruct Hunit as (Hday & Hweek & Hhour & Hmin & Hsec & _).
  rewrite timeDiffProvider_Get_no_format by done.
  assert (Hdelta : timeDiff_delta [a0; a1; a2] = 0 * 1000000000).
  { unfold timeDiff_delta. by rewrite !(proj2 (String.eqb_neq _ _)) by done. }
  rewrite Hdelta, Add_whole_seconds by done. rewrite Z.add_0_r.
  by destruct (timeDiff_base [a0; a1; a2]).
Qed.

End TimeDiffMore.

(** Five arguments: the format [unix] in the fourth place is not read. *)
Lemma timeDiffProvider_Get_format_needs_four_witness :
  length [VTime (time.mkTime 5 0); VInt 1; VString "sec"; VString "unix"; VNil]
    ≠ 4%nat
  ∧ Providers.timeDiffProvider_Get (H := Reference.machine) (λ _, None)
      [VTime (time.mkTime 5 0); VInt 1; VString "sec"; VString "unix"; VNil]
    = returns (VTime (time.mkTime 6 0)).
Proof.
  assert (Hlen : length [VTime (time.mkTime 5 0); VInt 1; VString "sec";
                         VString "unix"; VNil] ≠ 4%nat) by (cbn; lia).
  split; [exact Hlen|].
  exact (timeDiffProvider_Get_format_needs_four (H := Reference.machine)
           (λ _, None) _ Hlen).
Defined.

(** One week before the instant 1700000000, with the unit in capitals. *)
Lemma timeDiffProvider_Get_moves_by_unit_witness :
  Providers.timeDiffProvider_Get (H := Reference.machine) (λ _, None)
    [VString "now"; VInt (-1); VString "WEEK"]
  = returns (VTime (time.mkTime (1700000000 + -1 * 604800) 0)).
Proof.
  apply (timeDiffProvider_Get_moves_by_unit (H := Reference.machine)
           (λ _, None) (VString "now") (VInt (-1)) (VString "WEEK") "week" 604800).
  - unfold unitSeconds. set_solver.
  - reflexivity.
  - split; vm_compute; discriminate.
  - split; vm_compute; first [discriminate | reflexivity].
Defined.

(** The unit [month] is not known: the base time comes back. *)
Lemma timeDiffProvider_Get_unknown_unit_witness :
  Providers.timeDiffProvider_Get (H := Reference.machine) (λ _, None)
    [VTime (time.mkTime 5 7); VInt 3; VString "month"]
  = returns (VTime (time.mkTime 5 7)).
Proof.
  apply (timeDiffProvider_Get_unknown_unit (H := Reference.machine)
           (λ _, None) (VTime (time.mkTime 5 7)) (VInt 3) (VString "month")).
  - cbn. rewrite !not_elem_of_cons. repeat split; try discriminate.
    apply not_elem_of_nil.
  - split; vm_compute; first [discriminate | reflexivity].
Defined.

(** ** Dictionaries *)

Section DictionaryMore.

Import Go Providers.
Context `{Helpers}.

(** X12. [MapDictionary.Exists] tells what [MapDictionary.Get] will do: it
    is true exactly when [Get] returns the stored value and no error, and
    false exactly when [Get] returns nil and the error [failed to lookup]. *)
Theorem MapDictionary_Exists_iff_Get (d : MapDictionary) (name : string) :
  (MapDictionary_Exists d name = true
   ↔ ∃ v, d !! name = Some v ∧ MapDictionary_Get d name = (v, None))
  ∧ (MapDictionary_Exists d name = false
     ↔ MapDictionary_Get d name = (VNil, Some ("failed to lookup: " ++ name))).
Proof.
  unfold MapDictionary_Exists, MapDictionary_Get.
  destruct (d !! name) as [v|]; split; split; try done.
  - intros _. by exists v.
  - intros (v & [=] & _).
Qed.

(** X13. For a key that the dictionary has, the dictionary-backed provider
    returns what the dictionary's [Get] returns, whether the key is the only
    argument or not; [Exists] is asked only when the key is the only
    argument. *)
Theorem dictionaryProvider_Get_present (p : dictionaryProvider)
    (context : Context) (dictionary : Dictionary) (a0 : value)
    (more : list value) :
  Context_GetInto context (dictionaryContentKey p) = Some dictionary →
  Dictionary_Exists dictionary (AsString a0) = true →
  (dictionaryProvider_Get p context (a0 :: more)).1
  = Done (Dictionary_Get dictionary (AsString a0))
  ∧ (CallExists (AsString a0) ∈ (dictionaryProvider_Get p context (a0 :: more)).2
     ↔ more = []).
Proof.
  intros Hholds Hexists. unfold dictionaryProvider_Get.
  rewrite Hholds. destruct more as [|a1 more].
  - rewrite Hexists. cbn. split; [done|]. split; [done|]. intros _. set_solver.
  - cbn. split; [done|]. split; [|done]. intros Hin.
    apply elem_of_cons in Hin as [? | Hin]; [done|].
    apply elem_of_cons in Hin as [? | Hin]; [done|].
    by apply elem_of_nil in Hin.
Qed.

End DictionaryMore.

(** The map [{a: 1}] under the key [dict]: [a] is found, alone and with a
    second argument. *)
Lemma dictionaryProvider_Get_present_witness :
  let p := Providers.NewDictionaryProvider (VString "dict") in
  let d : MapDictionary := {[ "a" := VInt 1 ]} in
  (Providers.dictionaryProvider_Get (H := Reference.machine) p
     (Reference.contextWith d) [VString "a"]).1 = Go.Done (VInt 1, None)
  ∧ (Providers.dictionaryProvider_Get (H := Reference.machine) p
       (Reference.contextWith d) [VString "a"; VNil]).1 = Go.Done (VInt 1, None).
Proof.
  intros p d. split.
  - exact (proj1 (dictionaryProvider_Get_present (H := Reference.machine) p
                    (Reference.contextWith d) (MapDictionary_asDictionary d)
                    (VString "a") [] eq_refl eq_refl)).
  - exact (proj1 (dictionaryProvider_Get_present (H := Reference.machine) p
                    (Reference.contextWith d) (MapDictionary_asDictionary d)
                    (VString "a") [VNil] eq_refl eq_refl)).
Defined.

(** ** The storage facade *)

Section StorageMore.

Import Go Storage Construction.
Context `{Platform}.
Implicit Types (s : storageService) (w : World) (backend : Service).

(** The six operations depend on the facade through [getServiceForSchema]
    only. *)
Lemma operations_of_getServiceForSchema s s' (URL : string) (object : Object)
    (reader : Reader) :
  Object_URL object = URL →
  getServiceForSchema s' URL = getServiceForSchema s URL →
  List s' URL = List s URL
  ∧ Exists s' URL = Exists s URL
  ∧ StorageObject s' URL = StorageObject s URL
  ∧ Download s' object = Download s object
  ∧ Upload s' URL reader = Upload s URL reader
  ∧ Delete s' object = Delete s object.
Proof.
  intros Hobject Hsame.
  unfold List, Exists, StorageObject, Download, Upload, Delete.
  by rewrite Hobject, Hsame.
Qed.

(** X14. A URL that [url.Parse] refuses: each of the six operations, and
    the construction of a facade for it, returns the error of the parser,
    calls no backend and no provider, and leaves the world as it is. *)
Theorem parse_error_is_returned s (URL : string) (object : Object)
    (reader : Reader) w (err : error) (providers : string → option Provider)
    (fileService memoryService : Service) (credentialFile : string) :
  url_Parse URL = inr err →
  Object_URL object = URL →
  refuses s URL object reader w err
  ∧ NewServiceForURL providers fileService memoryService URL credentialFile w
    = (inr err, w).
Proof.
  intros Hparse Hobject.
  assert (Hget : getServiceForSchema s URL = inr err)
    by (unfold getServiceForSchema; by rewrite Hparse).
  split.
  - unfold refuses, List, Exists, StorageObject, Download, Upload, Delete.
    by rewrite Hobject, Hget.
  - unfold NewServiceForURL. by rewrite Hparse.
Qed.

(** X15. The facade of [NewService()] serves exactly two schemes: a [file]
    URL goes to the file backend, a [mem] URL to the memory backend, and a
    URL of any other scheme is refused with the scheme-lookup error. *)
Theorem NewService_serves_file_and_mem (fileService memoryService : Service)
    (URL : string) (u : url_URL) (object : Object) (reader : Reader) w :
  url_Parse URL = inl u →
  Object_URL object = URL →
  (Scheme u = "file" →
   routes_to (NewService fileService memoryService) fileService URL object reader w)
  ∧ (Scheme u = "mem" →
     routes_to (NewService fileService memoryService) memoryService URL object
       reader w)
  ∧ (Scheme u ≠ "file" → Scheme u ≠ "mem" →
     refuses (NewService fileService memoryService) URL object reader w
       ("failed to lookup url schema " ++ Scheme u ++ " in " ++ URL)).
Proof.
  intros Hparse Hobject. split; [|split].
  - intros Hscheme. apply (routes_to_registered _ _ u); [done..|].
    rewrite Hscheme. cbn. by rewrite lookup_insert_ne, lookup_insert_eq.
  - intros Hscheme. apply (routes_to_registered _ _ u); [done..|].
    rewrite Hscheme. cbn. by rewrite lookup_insert_eq.
  - intros Hfile Hmem. apply (refuses_unregistered _ _ u); [done..|].
    cbn. by rewrite !lookup_insert_ne, lookup_empty.
Qed.

(** X16. Registering a backend for one scheme leaves every operation on a
    URL of another scheme as it was. *)
Theorem Register_leaves_other_schemes s (schema : string) backend
    (URL : string) (u : url_URL) (object : Object) (reader : Reader) :
  url_Parse URL = inl u →
  Scheme u ≠ schema →
  Object_URL object = URL →
  let s' := (Register s schema backend).1 in
  getServiceForSchema s' URL = getServiceForSchema s URL
  ∧ List s' URL = List s URL
  ∧ Exists s' URL = Exists s URL
  ∧ StorageObject s' URL = StorageObject s URL
  ∧ Download s' object = Download s object
  ∧ Upload s' URL reader = Upload s URL reader
  ∧ Delete s' object = Delete s object.
Proof.
  intros Hparse Hne Hobject s'.
  assert (Hsame : getServiceForSchema s' URL = getServiceForSchema s URL).
  { unfold getServiceForSchema. rewrite Hparse. cbn.
    by rewrite lookup_insert_ne. }
  split; [done|]. by apply operations_of_getServiceForSchema.
Qed.

(** When every entry closes without error in every world, the loop closes
    them all and returns nil. *)
Lemma Close_loop_all_succeed (entries : list (string * Service)) w :
  Forall (λ e, ∀ w', (Service_Close e.2 w').1 = None) entries →
  (Close_loop entries w).1.1 = None
  ∧ event_target <$> (Close_loop entries w).2 = entries.*1.
Proof.
  revert w. induction entries as [|[scheme service] rest IH]; intros w Hall;
    [done|].
  apply Forall_cons in Hall as [Hhead Hrest]. cbn in Hhead.
  cbn [Close_loop]. rewrite invoke_run. specialize (Hhead w).
  destruct (Service_Close service w) as [err w'] eqn:Hclose. cbn in Hhead.
  subst err. cbn. destruct (IH w' Hrest) as [Herr Htargets].
  destruct (Close_loop rest w') as [[r w''] called]. cbn in *.
  by rewrite Htargets.
Qed.

(** When an entry fails to close in every world, the loop returns an
    error. *)
Lemma Close_loop_one_fails (entries : list (string * Service)) w
    (scheme : string) backend :
  (scheme, backend) ∈ entries →
  (∀ w', (Service_Close backend w').1 ≠ None) →
  (Close_loop entries w).1.1 ≠ None.
Proof.
  revert w. induction entries as [|[k service] rest IH]; intros w Hin Hfails.
  - by apply elem_of_nil in Hin.
  - cbn [Close_loop]. rewrite invoke_run.
    destruct (Service_Close service w) as [[err|] w'] eqn:Hclose; cbn; [done|].
    apply elem_of_cons in Hin as [[= <- <-] | Hin].
    + specialize (Hfails w). by rewrite Hclose in Hfails.
    + specialize (IH w' Hin Hfails).
      by destruct (Close_loop rest w') as [[r w''] called].
Qed.

(** X17. The outcome of [Close] does not depend on the order of [range]
    when the backends themselves are steady: if every registered backend
    closes without error in every world, [Close] returns nil and closes
    every registered scheme, in whatever order; if some registered backend
    fails to close in every world, [Close] returns an error in whatever
    order. *)
Theorem Close_whatever_the_order s (order : list (string * Service)) w :
  ranges_over order s →
  ((∀ scheme backend w', registry s !! scheme = Some backend →
                         (Service_Close backend w').1 = None) →
   (Close s order w).1.1 = None
   ∧ event_target <$> (Close s order w).2 = order.*1
   ∧ ∀ scheme, is_Some (registry s !! scheme) ↔
               scheme ∈ event_target <$> (Close s order w).2)
  ∧ (∀ scheme backend, registry s !! scheme = Some backend →
       (∀ w', (Service_Close backend w').1 ≠ None) →
       (Close s order w).1.1 ≠ None).
Proof.
  intros Hrange. unfold ranges_over in Hrange.
  assert (Hentries : ∀ scheme backend,
            registry s !! scheme = Some backend ↔ (scheme, backend) ∈ order).
  { intros scheme backend. rewrite Hrange. symmetry. apply elem_of_map_to_list. }
  unfold Close. split.
  - intros Hall.
    destruct (Close_loop_all_succeed order w) as [Herr Htargets].
    { apply Forall_forall. intros [scheme backend] Hin w'. cbn.
      apply (Hall scheme). by apply Hentries. }
    split; [done|]. split; [done|]. intros scheme. rewrite Htargets.
    rewrite list_elem_of_fmap. split.
    + intros [backend Hb]. exists (scheme, backend). split; [done|].
      by apply Hentries.
    + intros ([k backend] & -> & Hin). exists backend. by apply Hentries.
  - intros scheme backend Hreg Hfails.
    apply (Close_loop_one_fails order w scheme backend); [|done].
    by apply Hentries.
Qed.

(** X18. Without a provider for the scheme of the URL, a facade is built
    for [file] URLs only: for them it is the facade of [NewService()]; for
    every other scheme the result is the error [unsupported scheme], also
    for [mem], which the facade of [NewService()] would serve. No provider
    is called and the world stays as it is. *)
Theorem NewServiceForURL_without_provider (providers : string → option Provider)
    (fileService memoryService : Service) (URL credentialFile : string)
    (u : url_URL) w :
  url_Parse URL = inl u →
  providers (Scheme u) = None →
  (Scheme u = "file" →
   NewServiceForURL providers fileService memoryService URL credentialFile w
   = (inl (NewService fileService memoryService), w))
  ∧ (Scheme u ≠ "file" →
     NewServiceForURL providers fileService memoryService URL credentialFile w
     = (inr ("unsupported scheme " ++ URL), w)).
Proof.
  intros Hparse Hnone. unfold NewServiceForURL. rewrite Hparse. cbn.
  rewrite Hnone. split; intros Hscheme.
  - by rewrite Hscheme.
  - by rewrite (proj2 (String.eqb_neq _ _) Hscheme).
Qed.

(** X19. With a provider for the scheme of the URL: when the provider
    fails, the result is its error behind [failed to get storage for url];
    when it yields a backend, the facade serves the URL through that
    backend, which replaces a built-in backend of the same scheme, and it
    keeps the built-in backends of the other schemes. In both cases the
    world is the one the provider left. *)
Theorem NewServiceForURL_with_provider (providers : string → option Provider)
    (fileService memoryService : Service) (URL credentialFile : string)
    (u : url_URL) (provider : Provider) w :
  url_Parse URL = inl u →
  providers (Scheme u) = Some provider →
  match (provider credentialFile w).1 with
  | inr err =>
      NewServiceForURL providers fileService memoryService URL credentialFile w
      = (inr ("failed to get storage for url " ++ URL ++ ": " ++ err),
         (provider credentialFile w).2)
  | inl backend =>
      ∃ s,
        NewServiceForURL providers fileService memoryService URL credentialFile w
        = (inl s, (provider credentialFile w).2)
        ∧ getServiceForSchema s URL = inl backend
        ∧ (Scheme u ≠ "file" → registry s !! "file" = Some fileService)
        ∧ (Scheme u ≠ "mem" → registry s !! "mem" = Some memoryService)
  end.
Proof.
  intros Hparse Hsome. unfold NewServiceForURL. rewrite Hparse. cbn.
  rewrite Hsome. destruct (provider credentialFile w) as [[backend|err] w']; cbn;
    [|done].
  eexists. split; [reflexivity|]. split; [|split].
  - unfold getServiceForSchema. rewrite Hparse. cbn. by rewrite lookup_insert_eq.
  - intros Hne. cbn. rewrite lookup_insert_ne by done.
    by rewrite lookup_insert_ne, lookup_insert_eq.
  - intros Hne. cbn. rewrite lookup_insert_ne by done.
    by rewrite lookup_insert_eq.
Qed.

(** X20. A facade that [NewServiceForURL] returns has a backend for the URL
    it was built for: no operation on that URL ends in the scheme-lookup
    error. *)
Theorem NewServiceForURL_serves_its_URL (providers : string → option Provider)
    (fileService memoryService : Service) (URL credentialFile : string)
    (s : storageService) w w' :
  NewServiceForURL providers fileService memoryService URL credentialFile w
  = (inl s, w') →
  ∃ backend, getServiceForSchema s URL = inl backend.
Proof.
  unfold NewServiceForURL, getServiceForSchema.
  destruct (url_Parse URL) as [u|err]; [|done]. cbn.
  destruct (providers (Scheme u)) as [provider|].
  - destruct (provider credentialFile w) as [[backend|err] w'']; [|done].
    intros [= <- <-]. exists backend. cbn. by rewrite lookup_insert_eq.
  - destruct (String.eqb (Scheme u) "file") eqn:Hfile; [|done]. cbn.
    intros [= <- <-]. apply String.eqb_eq in Hfile. rewrite Hfile.
    exists fileService. cbn. by rewrite lookup_insert_ne, lookup_insert_eq.
Qed.

End StorageMore.

(** *** The storage facade on examples *)

(** The URL [:x] does not parse. *)
Lemma parse_error_is_returned_witness :
  Storage.refuses (H := Strict.platform)
    (Storage.NewService (Strict.backend "file" None) (Strict.backend "mem" None))
    ":x" ":x" "data" [] "missing protocol scheme"
  ∧ Construction.NewServiceForURL (H := Strict.platform) Strict.providers
      (Strict.backend "file" None) (Strict.backend "mem" None) ":x" "secret.json" []
    = (inr "missing protocol scheme", []).
Proof.
  exact (parse_error_is_returned (H := Strict.platform)
           (Storage.NewService (Strict.backend "file" None) (Strict.backend "mem" None))
           ":x" ":x" "data" [] "missing protocol scheme" Strict.providers
           (Strict.backend "file" None) (Strict.backend "mem" None) "secret.json"
           eq_refl eq_refl).
Defined.

(** A [file] URL, a [mem] URL and an [ftp] URL on the facade of
    [NewService()]. *)
Lemma NewService_serves_file_and_mem_witness :
  let s := Storage.NewService (H := Strict.platform)
             (Strict.backend "file" None) (Strict.backend "mem" None) in
  Storage.routes_to s (Strict.backend "file" None) "file:///tmp/a"
    "file:///tmp/a" "data" []
  ∧ Storage.routes_to s (Strict.backend "mem" None) "mem://b/a" "mem://b/a"
      "data" []
  ∧ Storage.refuses s "ftp://h/a" "ftp://h/a" "data" []
      "failed to lookup url schema ftp in ftp://h/a".
Proof.
  intros s. split; [|split].
  - exact (proj1 (NewService_serves_file_and_mem (H := Strict.platform)
                    (Strict.backend "file" None) (Strict.backend "mem" None)
                    "file:///tmp/a" (Storage.mkURL "file") "file:///tmp/a" "data" []
                    eq_refl eq_refl) eq_refl).
  - exact (proj1 (proj2 (NewService_serves_file_and_mem (H := Strict.platform)
                    (Strict.backend "file" None) (Strict.backend "mem" None)
                    "mem://b/a" (Storage.mkURL "mem") "mem://b/a" "data" []
                    eq_refl eq_refl)) eq_refl).
  - refine (proj2 (proj2 (NewService_serves_file_and_mem (H := Strict.platform)
                    (Strict.backend "file" None) (Strict.backend "mem" None)
                    "ftp://h/a" (Storage.mkURL "ftp") "ftp://h/a" "data" []
                    eq_refl eq_refl)) _ _); discriminate.
Defined.

(** Registering a backend for [s3] leaves a [mem] URL with the memory
    backend. *)
Lemma Register_leaves_other_schemes_witness :
  let s := Storage.NewService (H := Strict.platform)
             (Strict.backend "file" None) (Strict.backend "mem" None) in
  let s' := (Storage.Register s "s3" (Strict.backend "s3" None)).1 in
  Storage.List s' "mem://b/a" [] = Storage.List s "mem://b/a" []
  ∧ Storage.List s' "mem://b/a" []
    = (["mem://b/a"], None, ["mem.List"],
       [Storage.mkEvent Storage.OpList "mem://b/a" None]).
Proof.
  intros s s'.
  assert (Hne : Storage.Scheme (Storage.mkURL "mem") ≠ "s3") by discriminate.
  destruct (Register_leaves_other_schemes (H := Strict.platform) s "s3"
              (Strict.backend "s3" None) "mem://b/a" (Storage.mkURL "mem")
              "mem://b/a" "data" eq_refl Hne eq_refl) as (_ & Hlist & _).
  split; [exact (f_equal (λ run, run []) Hlist) | reflexivity].
Defined.

(** The facade of [NewService()], whose two backends close without error,
    and the facade [busy] of three backends, of which [b] never closes. *)
Lemma Close_whatever_the_order_witness :
  let s := Storage.NewService (H := Journal.platform)
             (Journal.backend "file" None) (Journal.backend "mem" None) in
  let order := [("file", Journal.backend "file" None);
                ("mem", Journal.backend "mem" None)] in
  let busy := [("c", Journal.backend "C" None);
               ("b", Journal.backend "B" (Some "B is busy"));
               ("a", Journal.backend "A" None)] in
  (Storage.Close s order []).1.1 = None
  ∧ Storage.event_target <$> (Storage.Close s order []).2 = ["file"; "mem"]
  ∧ (Storage.Close Journal.busy busy []).1.1 ≠ None.
Proof.
  intros s order busy.
  assert (Hrange : Storage.ranges_over (H := Journal.platform) order s).
  { unfold Storage.ranges_over, s, order, Storage.NewService. cbn.
    rewrite !map_to_list_insert, map_to_list_empty by (vm_compute; reflexivity).
    apply perm_swap. }
  assert (Hbusy : Storage.ranges_over (H := Journal.platform) busy Journal.busy).
  { unfold Storage.ranges_over, Journal.busy, busy. cbn [Storage.registry].
    rewrite !map_to_list_insert, map_to_list_empty by (vm_compute; reflexivity).
    symmetry.
    exact (Permutation_rev
             [("a", Journal.backend "A" None);
              ("b", Journal.backend "B" (Some "B is busy"));
              ("c", Journal.backend "C" None)]). }
  destruct (Close_whatever_the_order (H := Journal.platform) s order [] Hrange)
    as [Hall _].
  destruct Hall as (Hnil & Hclosed & _).
  { intros scheme backend w' Hreg. unfold s, Storage.NewService in Hreg.
    cbn in Hreg.
    apply lookup_insert_Some in Hreg as [[_ <-] | [_ Hreg]]; [done|].
    apply lookup_insert_Some in Hreg as [[_ <-] | [_ Hreg]]; [done|].
    by rewrite lookup_empty in Hreg. }
  destruct (Close_whatever_the_order (H := Journal.platform) Journal.busy busy
              [] Hbusy) as [_ Hfails].
  split; [exact Hnil|]. split; [exact Hclosed|].
  apply (Hfails "b" (Journal.backend "B" (Some "B is busy"))); [reflexivity|].
  intros w'. discriminate.
Defined.

(** No provider is registered for [mem] or for [file]. *)
Lemma NewServiceForURL_without_provider_witness :
  Construction.NewServiceForURL (H := Strict.platform) Strict.providers
    (Strict.backend "file" None) (Strict.backend "mem" None)
    "file:///tmp/a" "" []
  = (inl (Storage.NewService (Strict.backend "file" None)
            (Strict.backend "mem" None)), [])
  ∧ Construction.NewServiceForURL (H := Strict.platform) Strict.providers
      (Strict.backend "file" None) (Strict.backend "mem" None) "mem://b/a" "" []
    = (inr "unsupported scheme mem://b/a", []).
Proof.
  split.
  - exact (proj1 (NewServiceForURL_without_provider (H := Strict.platform)
                    Strict.providers (Strict.backend "file" None)
                    (Strict.backend "mem" None) "file:///tmp/a" ""
                    (Storage.mkURL "file") [] eq_refl eq_refl) eq_refl).
  - refine (proj2 (NewServiceForURL_without_provider (H := Strict.platform)
                     Strict.providers (Strict.backend "file" None)
                     (Strict.backend "mem" None) "mem://b/a" ""
                     (Storage.mkURL "mem") [] eq_refl eq_refl) _).
    discriminate.
Defined.

(** The provider of [s3] with the right and with a wrong credential
    file. *)
Lemma NewServiceForURL_with_provider_witness :
  (∃ s, Construction.NewServiceForURL (H := Strict.platform) Strict.providers
          (Strict.backend "file" None) (Strict.backend "mem" None)
          "s3://b/a" "secret.json" []
        = (inl s, ["read secret.json"])
        ∧ Storage.getServiceForSchema s "s3://b/a" = inl (Strict.backend "s3" None))
  ∧ Construction.NewServiceForURL (H := Strict.platform) Strict.providers
      (Strict.backend "file" None) (Strict.backend "mem" None)
      "s3://b/a" "other.json" []
    = (inr "failed to get storage for url s3://b/a: no credentials", []).
Proof.
  split.
  - destruct (NewServiceForURL_with_provider (H := Strict.platform)
                Strict.providers (Strict.backend "file" None)
                (Strict.backend "mem" None) "s3://b/a" "secret.json"
                (Storage.mkURL "s3") _ [] eq_refl eq_refl)
      as (s & Hbuilt & Hserves & _).
    exists s. by split.
  - exact (NewServiceForURL_with_provider (H := Strict.platform)
             Strict.providers (Strict.backend "file" None)
             (Strict.backend "mem" None) "s3://b/a" "other.json"
             (Storage.mkURL "s3") _ [] eq_refl eq_refl).
Defined.

(** The facade built for [s3://b/a] has a backend for that URL. *)
Lemma NewServiceForURL_serves_its_URL_witness :
  ∃ backend,
    Storage.getServiceForSchema (H := Strict.platform)
      (Storage.Register
         (Storage.NewService (Strict.backend "file" None) (Strict.backend "mem" None))
         "s3" (Strict.backend "s3" None)).1 "s3://b/a" = inl backend.
Proof.
  exact (NewServiceForURL_serves_its_URL (H := Strict.platform) Strict.providers
           (Strict.backend "file" None) (Strict.backend "mem" None)
           "s3://b/a" "secret.json" _ [] ["read secret.json"] eq_refl).
Defined.

(** ** The providers on examples *)

(** A cast to [time] with a value and no format. *)
Lemma castedValueProvider_Get_time_arity_witness :
  Providers.castedValueProvider_Get (H := Reference.machine) (λ _, None)
    [VString "time"; VString "2020-01-01"]
  = fails ("failed to cast to time due to invalid number of arguments "
           ++ "expected 2, but had 1").
Proof.
  refine (castedValueProvider_Get_time_arity (H := Reference.machine) (λ _, None)
            [VString "2020-01-01"] _ _); [discriminate | cbn; lia].
Defined.

(** A cast to [date], which is no type name of the provider. *)
Lemma castedValueProvider_Get_unsupported_witness :
  Providers.castedValueProvider_Get (H := Reference.machine) (λ _, None)
    [VString "date"; VString "2020-01-01"]
  = fails "failed to cast to date - unsupported type".
Proof.
  refine (castedValueProvider_Get_unsupported (H := Reference.machine) (λ _, None)
            "date" (VString "2020-01-01") [] _).
  rewrite !not_elem_of_cons. repeat split; try discriminate.
  apply not_elem_of_nil.
Defined.

Section TimeDiffFormats.

Import Go Providers.
Context `{Helpers}.

(** The sum [t.Unix() + t.UnixNano()] from the epoch to the year 2255, divided
    by [10^9] and by [10^6]. *)
Lemma sum_of_seconds_and_nanoseconds (t : time.Time) :
  (0 ≤ time.sec t < 9000000000)%Z →
  (0 ≤ time.nsec t < 1000000000)%Z →
  div64 (add64 (time.Unix t) (time.UnixNano t)) 1000000000
  = (time.sec t + (time.sec t + time.nsec t) / 1000000000)%Z
  ∧ ((time.sec t + (time.sec t + time.nsec t) / 1000000000)%Z = time.Unix t
     ↔ (time.sec t + time.nsec t < 1000000000)%Z)
  ∧ div64 (add64 (time.Unix t) (time.UnixNano t)) 1000000
    = (time.sec t * 1000 + (time.sec t + time.nsec t) / 1000000)%Z.
Proof.
  intros Hsec Hnsec.
  assert (Hsum : add64 (time.Unix t) (time.UnixNano t)
                 = (time.sec t + time.nsec t + time.sec t * 1000000000)%Z).
  { unfold time.UnixNano, time.Unix, add64, mul64.
    rewrite (wrap64_small (time.sec t * 1000000000)) by lia.
    rewrite (wrap64_small (time.sec t * 1000000000 + time.nsec t)) by lia.
    rewrite wrap64_small by lia. lia. }
  rewrite Hsum. unfold div64, time.Unix.
  assert (0 ≤ (time.sec t + time.nsec t) / 1000000000 < 11)%Z.
  { split; [apply Z.div_pos; lia | apply Z.div_lt_upper_bound; lia]. }
  assert (0 ≤ (time.sec t + time.nsec t) / 1000000 < 10001)%Z.
  { split; [apply Z.div_pos; lia | apply Z.div_lt_upper_bound; lia]. }
  split; [|split].
  - rewrite Z.quot_div_nonneg, Z.div_add by lia.
    rewrite wrap64_small by lia. lia.
  - split.
    + intros Heq. apply Z.nle_gt. intros Hge.
      assert (1 ≤ (time.sec t + time.nsec t) / 1000000000)%Z
        by (apply Z.div_le_lower_bound; lia). lia.
    + intros Hlt. rewrite Z.div_small by lia. lia.
  - replace (time.sec t * 1000000000)%Z with (time.sec t * 1000 * 1000000)%Z by lia.
    rewrite Z.quot_div_nonneg, Z.div_add by lia.
    rewrite wrap64_small by lia. lia.
Qed.

(** X21. What the formats [unix] and [timestamp] return for a result time
    from the epoch to the year 2255, where the sum of seconds and
    nanoseconds does not wrap: the seconds since the epoch plus
    [(sec + nsec) / 10^9], and the seconds times 1000 plus
    [(sec + nsec) / 10^6]. The first is the seconds since the epoch exactly
    when [sec + nsec < 10^9]. *)
Theorem timeDiffProvider_Get_unix_and_timestamp (context : Context)
    (a0 a1 a2 a3 : value) :
  let t := time.Add (timeDiff_base [a0; a1; a2; a3])
                    (timeDiff_delta [a0; a1; a2; a3]) in
  (0 ≤ time.sec t < 9000000000)%Z →
  (0 ≤ time.nsec t < 1000000000)%Z →
  (AsString a3 = "unix" →
   timeDiffProvider_Get context [a0; a1; a2; a3]
   = returns (VInt (time.sec t + (time.sec t + time.nsec t) / 1000000000))
   ∧ (time.sec t + (time.sec t + time.nsec t) / 1000000000 = time.Unix t
      ↔ (time.sec t + time.nsec t < 1000000000)%Z))
  ∧ (AsString a3 = "timestamp" →
     timeDiffProvider_Get context [a0; a1; a2; a3]
     = returns (VInt (time.sec t * 1000 + (time.sec t + time.nsec t) / 1000000))).
Proof.
  intros t Hsec Hnsec.
  destruct (sum_of_seconds_and_nanoseconds t Hsec Hnsec) as (Hunix & Hexact & Hmilli).
  split; intros Hformat; rewrite timeDiffProvider_Get_four, Hformat.
  - rewrite timeDiff_render_unix. fold t. rewrite Hunix. by split.
  - rewrite timeDiff_render_timestamp. fold t. by rewrite Hmilli.
Qed.

End TimeDiffFormats.

(** One day after the instant 1700000000. *)
Lemma timeDiffProvider_Get_unix_and_timestamp_witness :
  Providers.timeDiffProvider_Get (H := Reference.machine) (λ _, None)
    [VString "now"; VInt 1; VString "day"; VString "unix"]
  = returns (VInt (1700086400 + (1700086400 + 0) / 1000000000))
  ∧ Providers.timeDiffProvider_Get (H := Reference.machine) (λ _, None)
      [VString "now"; VInt 1; VString "day"; VString "timestamp"]
    = returns (VInt (1700086400 * 1000 + (1700086400 + 0) / 1000000)).
Proof.
  split.
  - refine (proj1 (proj1 (timeDiffProvider_Get_unix_and_timestamp
                     (H := Reference.machine) (λ _, None) (VString "now") (VInt 1)
                     (VString "day") (VString "unix") _ _) eq_refl));
      split; vm_compute; first [discriminate | reflexivity].
  - refine (proj2 (timeDiffProvider_Get_unix_and_timestamp
                     (H := Reference.machine) (λ _, None) (VString "now") (VInt 1)
                     (VString "day") (VString "timestamp") _ _) eq_refl);
      split; vm_compute; first [discriminate | reflexivity].
Defined.

Section TimeDiffShort.

Import Go Providers.
Context `{Helpers}.

(** X22. With fewer than three arguments no delta is applied and no format
    is read: the provider returns the base time, so an amount given without
    a unit is ignored; the base time is the zero time when there is no
    argument, or when the first one is neither [now] nor a time. *)
Theorem timeDiffProvider_Get_without_unit (context : Context)
    (arguments : list value) :
  (length arguments < 3)%nat →
  (0 ≤ time.nsec (timeDiff_base arguments) < 1000000000)%Z →
  timeDiffProvider_Get context arguments = returns (VTime (timeDiff_base arguments))
  ∧ (match arguments with
     | [] => True
     | a0 :: _ => strings_ToLower (AsString a0) ≠ "now" ∧ AsTime a0 "" = None
     end →
     timeDiffProvider_Get context arguments = returns (VTime time.zero)).
Proof.
  intros Hlen Hnsec.
  assert (Hdelta : timeDiff_delta arguments = (0 * 1000000000)%Z).
  { destruct arguments as [|a0 [|a1 [|a2 more]]]; try done. cbn in Hlen. lia. }
  assert (Hget : timeDiffProvider_Get context arguments
                 = returns (VTime (timeDiff_base arguments))).
  { rewrite timeDiffProvider_Get_no_format
      by (apply timeDiff_format_not_four; lia).
    rewrite Hdelta, Add_whole_seconds by done. rewrite Z.add_0_r.
    by destruct (timeDiff_base arguments). }
  split; [done|]. intros Hbase. rewrite Hget. do 2 f_equal.
  destruct arguments as [|a0 more]; [done|]. destruct Hbase as [Hnow Hnone].
  cbn. by rewrite (proj2 (String.eqb_neq _ _) Hnow), Hnone.
Qed.

End TimeDiffShort.

(** An amount without a unit on the clock of the reference machine, and a
    first argument that is no time. *)
Lemma timeDiffProvider_Get_without_unit_witness :
  Providers.timeDiffProvider_Get (H := Reference.machine) (λ _, None)
    [VString "now"; VInt 5]
  = returns (VTime (Providers.timeDiff_base (H := Reference.machine)
                      [VString "now"; VInt 5]))
  ∧ Providers.timeDiffProvider_Get (H := Reference.machine) (λ _, None)
      [VBool true]
    = returns (VTime time.zero).
Proof.
  split.
  - refine (proj1 (timeDiffProvider_Get_without_unit (H := Reference.machine)
                     (λ _, None) [VString "now"; VInt 5] _ _)).
    + cbn. lia.
    + split; vm_compute; first [discriminate | reflexivity].
  - refine (proj2 (timeDiffProvider_Get_without_unit (H := Reference.machine)
                     (λ _, None) [VBool true] _ _) _).
    + cbn. lia.
    + split; vm_compute; first [discriminate | reflexivity].
    + split; [vm_compute; discriminate | reflexivity].
Defined.
